(** * CursorCam: the tracking-and-gesture control loop of [app.py]

    A shallow embedding of the classes [Config], [UserProfile],
    [GestureDetector], [PerformanceMonitor] and [FaceTracker] and of the
    function [process_frame] of [src/app.py], and of the class of
    [src/face_tracker.py], followed by the properties of the control loop.

    Numbers.  Python floats and numpy [float64] values are modelled by the
    real numbers [R] of the Standard Library: rounding, overflow and NaN are
    outside the model.  Three places are given apart, as the reals would
    hide what the code does there.  A division is partial: the quotient of
    the aspect ratios is an [np_float], which is no number for a zero
    divisor (in [R] itself [x / 0] is [0]).  [float] of an integer too large
    for a double raises [OverflowError].  And the test of the calibration
    commit compares a deviation with twice the standard deviation: where
    the two are equal as real numbers the rounding decides in the code, so
    the properties of a commit are stated for buffers that are [tie_free].
    Integer values the code keeps as integers (screen size, cursor position,
    [astype(int)] results) are [Z]; frame counters are [nat].

    Effects.  Every method takes the object state as a record and returns the
    new state with its result.  The readings of [time.time()] and of
    [pyautogui.position()] are arguments; the calls [pyautogui.moveTo],
    [pyautogui.click] and [UserProfile.save] are returned as a list of
    [effect]s.  A [try ... except Exception] block is an [option] (or a sum)
    computation whose failure takes the handler's value; state written
    before the raise is kept, as in Python. *)

From Stdlib Require Import Reals Lra Lia ZArith.
From stdpp Require Import gmap strings list.

Local Open Scope R_scope.

(** ** Numeric helpers *)

#[global] Instance Rlt_decision (x y : R) : Decision (x < y) := Rlt_dec x y.
#[global] Instance Rle_decision (x y : R) : Decision (x <= y) := Rle_dec x y.
#[global] Instance Rgt_decision (x y : R) : Decision (x > y) := Rgt_dec x y.
#[global] Instance Rge_decision (x y : R) : Decision (x >= y) := Rge_dec x y.
#[global] Instance Req_decision : EqDecision R := Req_dec_T.

(** A 2D point or vector: a tuple [(x, y)] or a numpy array of shape (2,). *)
Definition point : Type := R * R.

Definition vsub (a b : point) : point := (a.1 - b.1, a.2 - b.2).
Definition vadd (a b : point) : point := (a.1 + b.1, a.2 + b.2).
Definition vscale (a : point) (k : R) : point := (a.1 * k, a.2 * k).

(** [np.linalg.norm] of a vector of two components. *)
Definition norm (v : point) : R := sqrt (v.1 * v.1 + v.2 * v.2).

(** [np.sign]. *)
Definition sign (x : R) : R :=
  if decide (0 < x) then 1 else if decide (x < 0) then -1 else 0.

(** [np.power(x, 1.5)] for [0 <= x]; [Rpower] is [exp (y * ln x)], which is
    the power only for [0 < x], so the value at 0 is given apart. *)
Definition power15 (x : R) : R :=
  if decide (x = 0) then 0 else Rpower x (3 / 2).

(** [np.clip(a, lo, hi)] is [minimum(maximum(a, lo), hi)]. *)
Definition clip (a lo hi : R) : R := Rmin (Rmax a lo) hi.

(** [float.astype(int)]: rounding toward zero. *)
Definition astype_int (x : R) : Z :=
  if decide (0 <= x) then Int_part x else (- Int_part (- x))%Z.

(** [np.mean] and [np.std] (population standard deviation) of one axis. *)
Definition sum (xs : list R) : R := foldr Rplus 0 xs.
Definition mean (xs : list R) : R := sum xs / INR (length xs).
Definition std (xs : list R) : R :=
  sqrt (mean (map (fun x => (Rabs (x - mean xs)) ^ 2) xs)).

(** ** class Config *)

Module Config.
Definition MOUSE_SMOOTHING : R := 15 / 100.
Definition MOUSE_SPEED : R := 12 / 10.
Definition SCREEN_PADDING : Z := 50.
Definition ACCELERATION_FACTOR : R := 15 / 10.
Definition DECELERATION_FACTOR : R := 8 / 10.

Definition CALIBRATION_FRAMES : nat := 15.
Definition CALIBRATION_THRESHOLD : R := 7 / 10.

Definition MOVEMENT_THRESHOLD : R := 2.
Definition SMOOTH_FACTOR : R := 3 / 10.

Definition EYE_AR_CONSEC_FRAMES : nat := 2.
Definition BLINK_COOLDOWN : R := 1.

Definition MOUTH_AR_CONSEC_FRAMES : nat := 3.
Definition MOUTH_COOLDOWN : R := 1.

Definition BLINK_SENSITIVITY : R := 23 / 100.
Definition MOUTH_SENSITIVITY : R := 5 / 10.
Definition CLICK_COOLDOWN : R := 5 / 10.
End Config.

(** ** class GestureDetector *)

(** The landmark set of one frame; [landmarks.part(i)] is [landmarks !! i]
    and raises when [i] is out of range. *)
Definition landmarks : Type := list point.

Record GestureDetector : Type := mkGestureDetector {
  eye_ar_counter : nat;
  mouth_ar_counter : nat;
  last_blink_time : R;
  last_mouth_time : R;
  blink_detected : bool;
  double_blink_pending : bool;
  mouth_open : bool
}.

Definition set_eye_ar_counter (g : GestureDetector) (n : nat) : GestureDetector :=
  mkGestureDetector n (mouth_ar_counter g) (last_blink_time g)
    (last_mouth_time g) (blink_detected g) (double_blink_pending g) (mouth_open g).

Definition set_mouth_ar_counter (g : GestureDetector) (n : nat) : GestureDetector :=
  mkGestureDetector (eye_ar_counter g) n (last_blink_time g)
    (last_mouth_time g) (blink_detected g) (double_blink_pending g) (mouth_open g).

Definition set_last_blink_time (g : GestureDetector) (t : R) : GestureDetector :=
  mkGestureDetector (eye_ar_counter g) (mouth_ar_counter g) t
    (last_mouth_time g) (blink_detected g) (double_blink_pending g) (mouth_open g).

Definition set_last_mouth_time (g : GestureDetector) (t : R) : GestureDetector :=
  mkGestureDetector (eye_ar_counter g) (mouth_ar_counter g) (last_blink_time g)
    t (blink_detected g) (double_blink_pending g) (mouth_open g).

(** A [float64] as numpy computes with it: a number, or one of [inf],
    [-inf] and [nan]. *)
Inductive np_float : Type :=
  | Finite (r : R)
  | NotFinite.

(** [a / b] on [float64] scalars.  A zero divisor raises nothing: numpy
    warns and gives [inf] or [nan]. *)
Definition np_divide (a b : R) : np_float :=
  if decide (b = 0) then NotFinite else Finite (a / b).

(** The number a [float64] is.  The ratios below are finite on every input
    ([aspect_ratio_finite], [eye_ratio_finite], [mouth_ratio_finite]), so
    the second case is never reached. *)
Definition number (x : np_float) : R :=
  match x with
  | Finite r => r
  | NotFinite => 0
  end.

(** The ratio of an aspect-ratio function once its points are read:
    [(v1 + v2) / (2.0 * h) if h > 0 else 0.0]. *)
Definition aspect_ratio_np (a1 a2 b1 b2 h1 h2 : point) : np_float :=
  let v1 := norm (vsub a1 a2) in
  let v2 := norm (vsub b1 b2) in
  let h := norm (vsub h1 h2) in
  if decide (h > 0) then np_divide (v1 + v2) (2 * h) else Finite 0.

(** The same as a number. *)
Definition aspect_ratio (a1 a2 b1 b2 h1 h2 : point) : R :=
  number (aspect_ratio_np a1 a2 b1 b2 h1 h2).

(** The loop [for i in range(start, stop): pts.append(landmarks.part(i))];
    [None] when a [part] raises. *)
Definition collect_parts (lm : landmarks) (start stop : nat) : option (list point) :=
  mapM (fun i => lm !! i) (seq start (stop - start)).

(** The body of the [try] of [get_eye_aspect_ratio]; [None] is a raised
    exception (a missing landmark or a list index out of range). *)
Definition eye_aspect_ratio_body (lm : landmarks) (start end_ : nat)
    : option np_float :=
  eye_points ← collect_parts lm start (end_ + 1);
  p1 ← eye_points !! 1%nat;
  p5 ← eye_points !! 5%nat;
  p2 ← eye_points !! 2%nat;
  p4 ← eye_points !! 4%nat;
  p0 ← eye_points !! 0%nat;
  p3 ← eye_points !! 3%nat;
  Some (aspect_ratio_np p1 p5 p2 p4 p0 p3).

(** [get_eye_aspect_ratio(landmarks, start, end)]: the value of the [try]
    body, or the [0.0] of the [except] branch. *)
Definition get_eye_aspect_ratio_np (lm : landmarks) (start end_ : nat) : np_float :=
  default (Finite 0) (eye_aspect_ratio_body lm start end_).

(** The same as a number, as the detectors compare it. *)
Definition get_eye_aspect_ratio (lm : landmarks) (start end_ : nat) : R :=
  number (get_eye_aspect_ratio_np lm start end_).

(** The body of the [try] of [get_mouth_aspect_ratio]. *)
Definition mouth_aspect_ratio_body (lm : landmarks) : option np_float :=
  mouth_points ← collect_parts lm 60 68;
  m2 ← mouth_points !! 2%nat;
  m6 ← mouth_points !! 6%nat;
  m3 ← mouth_points !! 3%nat;
  m5 ← mouth_points !! 5%nat;
  m0 ← mouth_points !! 0%nat;
  m4 ← mouth_points !! 4%nat;
  Some (aspect_ratio_np m2 m6 m3 m5 m0 m4).

(** [get_mouth_aspect_ratio(landmarks)]: the value of the [try] body, or the
    [0.0] of the [except] branch. *)
Definition get_mouth_aspect_ratio_np (lm : landmarks) : np_float :=
  default (Finite 0) (mouth_aspect_ratio_body lm).

Definition get_mouth_aspect_ratio (lm : landmarks) : R :=
  number (get_mouth_aspect_ratio_np lm).

(** The blink ratio: the mean of both eyes' ratios. *)
Definition blink_ear (lm : landmarks) : R :=
  (get_eye_aspect_ratio lm 36 41 + get_eye_aspect_ratio lm 42 47) / 2.

(** [detect_blink(landmarks, threshold)] with the reading [current_time] of
    [time.time()].  Nothing in the [try] raises for a real threshold: the
    ratio functions catch their own exceptions. *)
Definition detect_blink (g : GestureDetector) (lm : landmarks) (threshold : R)
    (current_time : R) : GestureDetector * bool :=
  let ear := blink_ear lm in
  if decide (ear < threshold) then
    (set_eye_ar_counter g (eye_ar_counter g + 1), false)
  else
    if decide (Config.EYE_AR_CONSEC_FRAMES <= eye_ar_counter g)%nat then
      if decide (current_time - last_blink_time g >= Config.BLINK_COOLDOWN) then
        (set_last_blink_time g current_time, true)
      else (set_eye_ar_counter g 0, false)
    else (set_eye_ar_counter g 0, false).

Definition detect_mouth_open (g : GestureDetector) (lm : landmarks) (threshold : R)
    (current_time : R) : GestureDetector * bool :=
  let mouth_ratio := get_mouth_aspect_ratio lm in
  if decide (mouth_ratio > threshold) then
    (set_mouth_ar_counter g (mouth_ar_counter g + 1), false)
  else
    if decide (Config.MOUTH_AR_CONSEC_FRAMES <= mouth_ar_counter g)%nat then
      if decide (current_time - last_mouth_time g >= Config.MOUTH_COOLDOWN) then
        (set_last_mouth_time g current_time, true)
      else (set_mouth_ar_counter g 0, false)
    else (set_mouth_ar_counter g 0, false).

(** ** Python values and exceptions *)

(** The values a decoded JSON payload holds: [null], a bool, an integer
    (a Python [int], of any size), a number with a fraction or an exponent
    (a Python [float], taken as a real number: [inf] and [nan] are left
    out), a string, a list, an object (a [dict] with string keys). *)
#[warnings="-register-all"]
Inductive PyVal : Type :=
  | PyNone
  | PyBool (b : bool)
  | PyInt (z : Z)
  | PyNum (r : R)
  | PyStr (s : string)
  | PyList (l : list PyVal)
  | PyDict (d : list (string * PyVal)).

Inductive exn : Type := TypeError | ValueError | OverflowError.

(** The integers [float] converts are those that round to a finite double:
    the ones below [2^1024 - 2^970] in absolute value, the midpoint between
    the largest double and [2^1024]. *)
Definition FLOAT_OVERFLOW : Z := 2 ^ 1024 - 2 ^ 970.

(** The double [float] makes of an [int], as an integer: the integer itself
    up to 53 bits, and beyond that the nearest one of 53 significant bits,
    a tie going to the even one. *)
Definition round_to_double (z : Z) : Z :=
  let a := Z.abs z in
  let e := (Z.log2 a - 52)%Z in
  if decide (e <= 0)%Z then z
  else
    let q := Z.shiftr a e in
    let rest := (a - Z.shiftl q e)%Z in
    let half := Z.shiftl 1 (e - 1) in
    let up := if decide (half < rest)%Z then 1%Z
              else if decide (rest = half) then (if Z.odd q then 1%Z else 0%Z)
              else 0%Z in
    (Z.sgn z * Z.shiftl (q + up) e)%Z.

(** Truth value of an object in [if obj:]. *)
Definition truthy (v : PyVal) : bool :=
  match v with
  | PyNone => false
  | PyBool b => b
  | PyInt z => bool_decide (z <> 0%Z)
  | PyNum r => bool_decide (r <> 0)
  | PyStr s => bool_decide (s <> EmptyString)
  | PyList l => bool_decide (l <> [])
  | PyDict d => bool_decide (d <> [])
  end.

(** ** class UserProfile *)

Record UserProfile : Type := mkUserProfile {
  name : string;
  sensitivity : R;
  smoothing : R;
  blink_threshold : R;
  mouth_threshold : R;
  region_bounds : PyVal;
  calibration_data : option point
}.

Definition UserProfile_init (n : string) : UserProfile :=
  mkUserProfile n 1 (15 / 100) Config.BLINK_SENSITIVITY Config.MOUTH_SENSITIVITY
    PyNone None.

Definition set_sensitivity (p : UserProfile) (r : R) : UserProfile :=
  mkUserProfile (name p) r (smoothing p) (blink_threshold p) (mouth_threshold p)
    (region_bounds p) (calibration_data p).
Definition set_smoothing (p : UserProfile) (r : R) : UserProfile :=
  mkUserProfile (name p) (sensitivity p) r (blink_threshold p) (mouth_threshold p)
    (region_bounds p) (calibration_data p).
Definition set_blink_threshold (p : UserProfile) (r : R) : UserProfile :=
  mkUserProfile (name p) (sensitivity p) (smoothing p) r (mouth_threshold p)
    (region_bounds p) (calibration_data p).
Definition set_mouth_threshold (p : UserProfile) (r : R) : UserProfile :=
  mkUserProfile (name p) (sensitivity p) (smoothing p) (blink_threshold p) r
    (region_bounds p) (calibration_data p).
Definition set_region_bounds (p : UserProfile) (v : PyVal) : UserProfile :=
  mkUserProfile (name p) (sensitivity p) (smoothing p) (blink_threshold p)
    (mouth_threshold p) v (calibration_data p).
Definition set_calibration_data (p : UserProfile) (c : option point) : UserProfile :=
  mkUserProfile (name p) (sensitivity p) (smoothing p) (blink_threshold p)
    (mouth_threshold p) (region_bounds p) c.

(** ** class FaceTracker *)

Inductive button : Type := LeftButton | RightButton.

(** What a method does to the outside: [pyautogui.moveTo(x, y)],
    [pyautogui.click(button=...)] and the call of [UserProfile.save()] on a
    profile. *)
Inductive effect : Type :=
  | MoveTo (x y : R)
  | Click (b : button)
  | Save (p : UserProfile).

(** The fields of [FaceTracker] the control loop reads or writes
    ([position_history], [performance], [frame_count] and [executor] take no
    part in it). *)
Record FaceTracker : Type := mkFaceTracker {
  velocity : point;
  screen_w : Z;
  screen_h : Z;
  is_calibrated : bool;
  calibration_points : list point;
  reference_point : option point;
  last_update : R;
  gesture_detector : GestureDetector;
  is_paused : bool;
  is_tracking : bool;
  current_profile : UserProfile;
  last_click_time : R
}.

Definition set_velocity (ft : FaceTracker) (v : point) : FaceTracker :=
  mkFaceTracker v (screen_w ft) (screen_h ft) (is_calibrated ft)
    (calibration_points ft) (reference_point ft) (last_update ft)
    (gesture_detector ft) (is_paused ft) (is_tracking ft) (current_profile ft)
    (last_click_time ft).
Definition set_is_calibrated (ft : FaceTracker) (b : bool) : FaceTracker :=
  mkFaceTracker (velocity ft) (screen_w ft) (screen_h ft) b
    (calibration_points ft) (reference_point ft) (last_update ft)
    (gesture_detector ft) (is_paused ft) (is_tracking ft) (current_profile ft)
    (last_click_time ft).
Definition set_calibration_points (ft : FaceTracker) (l : list point) : FaceTracker :=
  mkFaceTracker (velocity ft) (screen_w ft) (screen_h ft) (is_calibrated ft)
    l (reference_point ft) (last_update ft)
    (gesture_detector ft) (is_paused ft) (is_tracking ft) (current_profile ft)
    (last_click_time ft).
Definition set_reference_point (ft : FaceTracker) (r : option point) : FaceTracker :=
  mkFaceTracker (velocity ft) (screen_w ft) (screen_h ft) (is_calibrated ft)
    (calibration_points ft) r (last_update ft)
    (gesture_detector ft) (is_paused ft) (is_tracking ft) (current_profile ft)
    (last_click_time ft).
Definition set_last_update (ft : FaceTracker) (t : R) : FaceTracker :=
  mkFaceTracker (velocity ft) (screen_w ft) (screen_h ft) (is_calibrated ft)
    (calibration_points ft) (reference_point ft) t
    (gesture_detector ft) (is_paused ft) (is_tracking ft) (current_profile ft)
    (last_click_time ft).
Definition set_gesture_detector (ft : FaceTracker) (g : GestureDetector) : FaceTracker :=
  mkFaceTracker (velocity ft) (screen_w ft) (screen_h ft) (is_calibrated ft)
    (calibration_points ft) (reference_point ft) (last_update ft)
    g (is_paused ft) (is_tracking ft) (current_profile ft)
    (last_click_time ft).
Definition set_is_paused (ft : FaceTracker) (b : bool) : FaceTracker :=
  mkFaceTracker (velocity ft) (screen_w ft) (screen_h ft) (is_calibrated ft)
    (calibration_points ft) (reference_point ft) (last_update ft)
    (gesture_detector ft) b (is_tracking ft) (current_profile ft)
    (last_click_time ft).
Definition set_is_tracking (ft : FaceTracker) (b : bool) : FaceTracker :=
  mkFaceTracker (velocity ft) (screen_w ft) (screen_h ft) (is_calibrated ft)
    (calibration_points ft) (reference_point ft) (last_update ft)
    (gesture_detector ft) (is_paused ft) b (current_profile ft)
    (last_click_time ft).
Definition set_current_profile (ft : FaceTracker) (p : UserProfile) : FaceTracker :=
  mkFaceTracker (velocity ft) (screen_w ft) (screen_h ft) (is_calibrated ft)
    (calibration_points ft) (reference_point ft) (last_update ft)
    (gesture_detector ft) (is_paused ft) (is_tracking ft) p
    (last_click_time ft).
Definition set_last_click_time (ft : FaceTracker) (t : R) : FaceTracker :=
  mkFaceTracker (velocity ft) (screen_w ft) (screen_h ft) (is_calibrated ft)
    (calibration_points ft) (reference_point ft) (last_update ft)
    (gesture_detector ft) (is_paused ft) (is_tracking ft) (current_profile ft)
    t.

(** [FaceTracker.__init__] with the screen size, the clock reading and the
    loaded profile. *)
Definition FaceTracker_init (w h : Z) (now : R) (p : UserProfile) : FaceTracker :=
  mkFaceTracker (0, 0) w h false [] None now
    (mkGestureDetector 0 0 now now false false false) false true p now.

Definition toggle_tracking (ft : FaceTracker) : FaceTracker * bool :=
  let ft := set_is_tracking ft (negb (is_tracking ft)) in
  let ft :=
    if negb (is_tracking ft)
    then set_calibration_points (set_is_calibrated ft false) []
    else ft in
  (ft, is_tracking ft).

Definition toggle_pause (ft : FaceTracker) : FaceTracker * bool :=
  let ft := set_is_paused ft (negb (is_paused ft)) in
  (ft, is_paused ft).

(** The non-linear control curve of [update_position], per axis:
    [np.sign(d) * np.power(np.abs(d), 1.5)]. *)
Definition expand (d : R) : R := sign d * power15 (Rabs d).

(** The velocity [update_position] stores, from the old velocity and the
    displacement of the face point from the reference. *)
Definition next_velocity (v : point) (displacement : point) : point :=
  let displacement := (expand displacement.1, expand displacement.2) in
  let target_velocity := vscale displacement Config.MOUSE_SPEED in
  let v := vadd (vscale v Config.SMOOTH_FACTOR)
                (vscale target_velocity (1 - Config.SMOOTH_FACTOR)) in
  let speed := norm v in
  if decide (speed > Config.MOVEMENT_THRESHOLD)
  then vscale v Config.ACCELERATION_FACTOR
  else vscale v Config.DECELERATION_FACTOR.

(** [update_position(face_point)] with the readings [current_time] of
    [time.time()] and [cursor] of [pyautogui.position()].  Subtracting a
    [None] reference raises inside the [try], after [last_update] is
    written; the handler returns [None]. *)
Definition update_position (ft : FaceTracker) (face_point : point)
    (current_time : R) (cursor : Z * Z) : FaceTracker * option (Z * Z) :=
  if negb (is_calibrated ft) || negb (is_tracking ft) then (ft, None)
  else
    let dt := current_time - last_update ft in
    let ft := set_last_update ft current_time in
    match reference_point ft with
    | None => (ft, None)
    | Some ref =>
        let displacement := vsub face_point ref in
        let ft := set_velocity ft (next_velocity (velocity ft) displacement) in
        let current_pos : point := (IZR cursor.1, IZR cursor.2) in
        let new_pos := vadd current_pos (vscale (velocity ft) dt) in
        let x := clip new_pos.1 (IZR Config.SCREEN_PADDING)
                      (IZR (screen_w ft - Config.SCREEN_PADDING)) in
        let y := clip new_pos.2 (IZR Config.SCREEN_PADDING)
                      (IZR (screen_h ft - Config.SCREEN_PADDING)) in
        (ft, Some (astype_int x, astype_int y))
    end.

(** The points of the buffer that pass
    [np.all(np.abs(points - mean) < 2 * std, axis=1)], the test read on the
    real numbers.  At a point that lies exactly at twice the deviation the
    code's answer hangs on the rounding of [np.mean] and [np.std], which is
    left out here: see [tie_free]. *)
Definition good_points (points : list point) : list point :=
  let xs := map fst points in
  let ys := map snd points in
  filter (fun p => Rabs (p.1 - mean xs) < 2 * std xs
                   /\ Rabs (p.2 - mean ys) < 2 * std ys) points.

(** [np.mean(points, axis=0)]. *)
Definition mean_point (points : list point) : point :=
  (mean (map fst points), mean (map snd points)).

(** [calibrate(face_point)]: [true] is a successful commit. *)
Definition calibrate (ft : FaceTracker) (face_point : point) : FaceTracker * bool :=
  if decide (length (calibration_points ft) < Config.CALIBRATION_FRAMES)%nat then
    (set_calibration_points ft (calibration_points ft ++ [face_point]), false)
  else
    let points := calibration_points ft in
    let good := good_points points in
    if decide (INR (length good)
               >= INR Config.CALIBRATION_FRAMES * Config.CALIBRATION_THRESHOLD) then
      let ft := set_reference_point ft (Some (mean_point good)) in
      let ft := set_is_calibrated ft true in
      let ft := set_velocity ft (0, 0) in
      (ft, true)
    else
      (set_calibration_points ft [], false).

(** [handle_click(click_type)] with the reading of [time.time()]. *)
Definition handle_click (ft : FaceTracker) (click_type : button) (current_time : R)
    : FaceTracker * list effect :=
  if decide (current_time - last_click_time ft >= Config.CLICK_COOLDOWN) then
    (set_last_click_time ft current_time, [Click click_type])
  else (ft, []).

(** ** Settings *)

Inductive result (A : Type) : Type :=
  | Ok (a : A)
  | Raise (e : exn).
Arguments Ok {A} a.
Arguments Raise {A} e.

(** [UserProfile.save()].  [json.dump] raises [TypeError] on a numpy array,
    which is what [calibration_data] holds once [process_frame] has stored
    the reference point in it; the file is then left half written. *)
Definition save (p : UserProfile) : list effect * result unit :=
  ([Save p],
   match calibration_data p with
   | None => Ok tt
   | Some _ => Raise TypeError
   end).

(** A statement on the active profile: the profile after it, and the
    exception it raised, if any.  The profile object is mutated in place, so
    what a statement wrote before a later one raises stays written. *)
Definition stmt : Type := UserProfile -> UserProfile * option exn.

Definition stmt_seq (a b : stmt) : stmt :=
  fun p => match a p with
           | (p', None) => b p'
           | (p', Some e) => (p', Some e)
           end.

Notation "a ;;; b" := (stmt_seq a b) (at level 90, right associativity).

Section Settings.

(** Python's builtin [float] on a [str]: the number the string denotes, or
    [None] where it raises [ValueError] (a string it reads as [inf] or
    [nan] has no place here, as those values have none). *)
Variable float_of_str : string -> option R.

(** [float(v)].  An [int] is rounded to the nearest double, and one too
    large for a double raises [OverflowError]. *)
Definition py_float (v : PyVal) : result R :=
  match v with
  | PyNone => Raise TypeError
  | PyBool b => Ok (if b then 1 else 0)
  | PyInt z => if decide (Z.abs z < FLOAT_OVERFLOW)%Z
               then Ok (IZR (round_to_double z))
               else Raise OverflowError
  | PyNum r => Ok r
  | PyStr s => match float_of_str s with
               | Some r => Ok r
               | None => Raise ValueError
               end
  | PyList _ => Raise TypeError
  | PyDict _ => Raise TypeError
  end.

(** [if key in settings: profile.<field> = float(settings[key])]. *)
Definition assign_float (settings : gmap string PyVal) (key : string)
    (set : UserProfile -> R -> UserProfile) : stmt :=
  fun p => match settings !! key with
           | None => (p, None)
           | Some v => match py_float v with
                       | Ok r => (set p r, None)
                       | Raise e => (p, Some e)
                       end
           end.

(** [if 'region_bounds' in settings: profile.region_bounds = settings[...]]. *)
Definition assign_region (settings : gmap string PyVal) : stmt :=
  fun p => match settings !! "region_bounds"%string with
           | None => (p, None)
           | Some v => (set_region_bounds p v, None)
           end.

(** The assignments of [update_settings], in the order of the source. *)
Definition settings_stmts (settings : gmap string PyVal) : stmt :=
  assign_float settings "sensitivity" set_sensitivity ;;;
  assign_float settings "smoothing" set_smoothing ;;;
  assign_float settings "blink_threshold" set_blink_threshold ;;;
  assign_float settings "mouth_threshold" set_mouth_threshold ;;;
  assign_region settings.

(** [update_settings(settings)]: the profile is saved when no assignment
    raised; an exception leaves the method before [save]. *)
Definition update_settings (ft : FaceTracker) (settings : gmap string PyVal)
    : FaceTracker * list effect * result unit :=
  match settings_stmts settings (current_profile ft) with
  | (p, None) => let '(effs, r) := save p in (set_current_profile ft p, effs, r)
  | (p, Some e) => (set_current_profile ft p, [], Raise e)
  end.

(** The reply of the [update_settings] socket handler. *)
Inductive reply : Type :=
  | StatusSuccess
  | StatusError (e : exn).

Definition handle_settings_update (ft : FaceTracker) (data : gmap string PyVal)
    : FaceTracker * list effect * reply :=
  match update_settings ft data with
  | (ft', effs, Ok _) => (ft', effs, StatusSuccess)
  | (ft', effs, Raise e) => (ft', effs, StatusError e)
  end.

End Settings.

(** ** process_frame *)

(** What one call of [process_frame] reads from outside: the clock at each
    [time.time()] it can reach and the cursor position. *)
Record FrameEnv : Type := mkFrameEnv {
  t_update : R;
  t_blink : R;
  t_right_click : R;
  t_mouth : R;
  t_left_click : R;
  cursor : Z * Z
}.

(** A value [np.clip] takes as a scalar bound: a number, or a bool, which
    numpy reads as 1 or 0.  An integer bound is taken as the number it is,
    whatever its size. *)
Definition as_number (v : PyVal) : option R :=
  match v with
  | PyNum r => Some r
  | PyInt z => Some (IZR z)
  | PyBool b => Some (if b then 1 else 0)
  | _ => None
  end.

(** [x1, y1, x2, y2 = region_bounds] followed by the two [np.clip] calls,
    for a list of four scalars; [None] stands for the exception the
    unpacking raises on another length and [np.clip] on a string or an
    object.  A bound [None], which [np.clip] reads as no bound on that
    side, and a bound that is itself a list are not modelled: they are
    given [None] here too, and the properties below speak of regions of
    four scalars and of lists of another length only. *)
Definition unpack_region (v : PyVal) : option (R * R * R * R) :=
  match v with
  | PyList [a; b; c; d] =>
      x1 ← as_number a; y1 ← as_number b;
      x2 ← as_number c; y2 ← as_number d;
      Some (x1, y1, x2, y2)
  | _ => None
  end.

(** The motion step of [process_frame]: [update_position], the region lock
    and [pyautogui.moveTo].  The last component is [false] when the region
    value raised. *)
Definition move_step (ft : FaceTracker) (nose_point : point) (env : FrameEnv)
    : FaceTracker * list effect * bool :=
  let '(ft, new_pos) := update_position ft nose_point (t_update env) (cursor env) in
  match new_pos with
  | Some (x, y) =>
      if negb (is_paused ft) then
        if truthy (region_bounds (current_profile ft)) then
          match unpack_region (region_bounds (current_profile ft)) with
          | Some (x1, y1, x2, y2) =>
              (ft, [MoveTo (clip (IZR x) x1 x2) (clip (IZR y) y1 y2)], true)
          | None => (ft, [], false)
          end
        else (ft, [MoveTo (IZR x) (IZR y)], true)
      else (ft, [], true)
  | None => (ft, [], true)
  end.

(** The gesture step: [detect_blink] then [detect_mouth_open], each with its
    click. *)
Definition gesture_step (ft : FaceTracker) (lm : landmarks) (env : FrameEnv)
    : FaceTracker * list effect :=
  let '(g, blink) := detect_blink (gesture_detector ft) lm
                       (blink_threshold (current_profile ft)) (t_blink env) in
  let ft := set_gesture_detector ft g in
  let '(ft, e1) := if blink then handle_click ft RightButton (t_right_click env)
                   else (ft, []) in
  let '(g, mouth) := detect_mouth_open (gesture_detector ft) lm
                       (mouth_threshold (current_profile ft)) (t_mouth env) in
  let ft := set_gesture_detector ft g in
  let '(ft, e2) := if mouth then handle_click ft LeftButton (t_left_click env)
                   else (ft, []) in
  (ft, e1 ++ e2).

(** [draw_debug_info] reads the 68 landmarks and raises when one is
    missing. *)
Definition debug_ok (lm : landmarks) : bool := bool_decide (68 <= length lm)%nat.

(** [process_frame(frame, face_tracker)], with [faces] the landmark set of
    the first detected face, or [None] when no face is found. *)
Definition process_frame (ft : FaceTracker) (faces : option landmarks)
    (env : FrameEnv) : FaceTracker * list effect * bool :=
  if negb (is_tracking ft) then (ft, [], true)
  else if is_paused ft then (ft, [], true)
  else match faces with
  | None => (ft, [], false)
  | Some lm =>
      match lm !! 30%nat with
      | None => (ft, [], false)
      | Some nose_point =>
          if negb (is_calibrated ft) then
            let '(ft, ok) := calibrate ft nose_point in
            if ok then
              let p := set_calibration_data (current_profile ft) (reference_point ft) in
              match save p with
              | (effs, Ok _) => (set_current_profile ft p, effs, debug_ok lm)
              | (effs, Raise _) => (set_current_profile ft p, effs, false)
              end
            else (ft, [], debug_ok lm)
          else
            let '(ft, moves, ok) := move_step ft nose_point env in
            if ok then
              let '(ft, clicks) := gesture_step ft lm env in
              (ft, moves ++ clicks, debug_ok lm)
            else (ft, moves, false)
      end
  end.

(** ** Runs and predicates of the statements *)

(** [detect_blink] called on consecutive frames, each with its landmarks and
    its clock reading; the events in frame order. *)
Fixpoint run_blink (g : GestureDetector) (threshold : R)
    (frames : list (landmarks * R)) : GestureDetector * list bool :=
  match frames with
  | [] => (g, [])
  | (lm, t) :: rest =>
      let '(g, b) := detect_blink g lm threshold t in
      let '(g, bs) := run_blink g threshold rest in
      (g, b :: bs)
  end.

(** [calibrate] called on consecutive face points; the results in order. *)
Fixpoint feed (ft : FaceTracker) (pts : list point) : FaceTracker * list bool :=
  match pts with
  | [] => (ft, [])
  | p :: rest =>
      let '(ft, b) := calibrate ft p in
      let '(ft, bs) := feed ft rest in
      (ft, b :: bs)
  end.

(** The keys [update_settings] converts with [float], in its order. *)
Definition numeric_keys : list string :=
  ["sensitivity"; "smoothing"; "blink_threshold"; "mouth_threshold"]%string.

(** The payload holds, under [key], a value [float] rejects. *)
Definition rejected (float_of_str : string -> option R)
    (data : gmap string PyVal) (key : string) : Prop :=
  exists v e, data !! key = Some v /\ py_float float_of_str v = Raise e.

Definition invalid_payload (float_of_str : string -> option R)
    (data : gmap string PyVal) : Prop :=
  exists key, key ∈ numeric_keys /\ rejected float_of_str data key.

(** A target inside the padded screen of a tracker. *)
Definition in_padded_screen (ft : FaceTracker) (x y : R) : Prop :=
  IZR Config.SCREEN_PADDING <= x <= IZR (screen_w ft - Config.SCREEN_PADDING)
  /\ IZR Config.SCREEN_PADDING <= y <= IZR (screen_h ft - Config.SCREEN_PADDING).

(** A target inside the rectangle [x1, y1, x2, y2]. *)
Definition in_region (r : R * R * R * R) (x y : R) : Prop :=
  let '(x1, y1, x2, y2) := r in x1 <= x <= x2 /\ y1 <= y <= y2.

(** Sample frames, in pixel coordinates: an open eye of width 30 and height
    16, a face with both eyes open, and a degenerate face whose landmarks all
    coincide. *)
Definition eye_open : list point :=
  [(100, 100); (110, 92); (120, 92); (130, 100); (120, 108); (110, 108)].

Definition open_face : landmarks := replicate 36 (0, 0) ++ eye_open ++ eye_open.

Definition flat_face : landmarks := replicate 68 (100, 100).

(** Sample tracker states on a 1920 x 1080 screen: just constructed,
    calibrated on a reference point, and calibrated but paused. *)
Definition fresh_tracker : FaceTracker :=
  FaceTracker_init 1920 1080 0 (UserProfile_init "default").

Definition tracking_at (ref : point) : FaceTracker :=
  set_is_calibrated (set_reference_point fresh_tracker (Some ref)) true.

Definition paused_tracker : FaceTracker :=
  set_is_paused (tracking_at (320, 240)) true.

(** A tracker calibrated on the point of [flat_face], with the region lock
    [0, 0, 10, 10] in its profile. *)
Definition corner_region : PyVal := PyList [PyNum 0; PyNum 0; PyNum 10; PyNum 10].

Definition region_tracker : FaceTracker :=
  set_current_profile (tracking_at (100, 100))
    (set_region_bounds (UserProfile_init "default") corner_region).

(** The rectangle [x1, y1, x2, y2] is not empty. *)
Definition region_ordered (r : R * R * R * R) : Prop :=
  let '(x1, y1, x2, y2) := r in x1 <= x2 /\ y1 <= y2.

(** The rectangle meets the padded screen of the tracker on both axes. *)
Definition region_meets_screen (ft : FaceTracker) (r : R * R * R * R) : Prop :=
  let '(x1, y1, x2, y2) := r in
  Rmax (IZR Config.SCREEN_PADDING) x1
    <= Rmin (IZR (screen_w ft - Config.SCREEN_PADDING)) x2
  /\ Rmax (IZR Config.SCREEN_PADDING) y1
    <= Rmin (IZR (screen_h ft - Config.SCREEN_PADDING)) y2.

(** A full calibration buffer of a nearly still head: the nose point within
    one pixel of (320, 240). *)
Definition steady_points : list point :=
  replicate 5 (319, 239) ++ replicate 5 (320, 240) ++ replicate 5 (321, 241).

Definition steady_tracker : FaceTracker :=
  set_calibration_points fresh_tracker steady_points.

(** The commit test of [calibrate] on a buffer. *)
Definition enough_good_points (points : list point) : Prop :=
  INR (length (good_points points))
  >= INR Config.CALIBRATION_FRAMES * Config.CALIBRATION_THRESHOLD.

(** No point of the buffer lies exactly at twice the deviation from the
    mean, on either axis.  On such a buffer the test [<] of the code does
    not hang on how the mean and the deviation are rounded. *)
Definition tie_free (points : list point) : Prop :=
  let xs := map fst points in
  let ys := map snd points in
  Forall (fun p => Rabs (p.1 - mean xs) <> 2 * std xs
                   /\ Rabs (p.2 - mean ys) <> 2 * std ys) points.

(** A payload with a new sensitivity and a null smoothing, and a stand-in
    for [float] on strings for examples whose payload holds no string. *)
Definition half_valid_payload : gmap string PyVal :=
  <["sensitivity"%string := PyNum 2]> (<["smoothing"%string := PyNone]> ∅).

Definition no_str_float : string -> option R := fun _ => None.


(** A numeric field after an update: its prior value, or [float] of the
    payload's value for its key. *)
Definition kept_or_assigned (float_of_str : string -> option R)
    (data : gmap string PyVal) (key : string) (before after : R) : Prop :=
  after = before
  \/ exists v, data !! key = Some v /\ py_float float_of_str v = Ok after.

(** A numeric field after an update that reached its key: [float] of the
    payload's value, when the payload holds one that converts. *)
Definition assigned (float_of_str : string -> option R)
    (data : gmap string PyVal) (key : string) (after : R) : Prop :=
  forall v r, data !! key = Some v -> py_float float_of_str v = Ok r -> after = r.

(** ** class PerformanceMonitor *)

(** [frame_times] is a [deque(maxlen=30)]. *)
Record PerformanceMonitor : Type := mkPerformanceMonitor {
  frame_times : list R;
  fps : R;
  last_time : R
}.

Definition FRAME_WINDOW : nat := 30.

(** [deque.append] on a deque of bounded length: the oldest items leave at
    the left. *)
Definition deque_append (maxlen : nat) (d : list R) (x : R) : list R :=
  drop (length (d ++ [x]) - maxlen) (d ++ [x]).

Definition PerformanceMonitor_init (now : R) : PerformanceMonitor :=
  mkPerformanceMonitor [] 0 now.

(** [PerformanceMonitor.update()] with the reading of [time.time()].  The
    deque and [last_time] are written first; [1.0 / (sum / len)] raises
    [ZeroDivisionError] when the frame times sum to zero, which is the [None]
    result, and [fps] is then left as it was. *)
Definition PerformanceMonitor_update (pm : PerformanceMonitor) (current_time : R)
    : PerformanceMonitor * option R :=
  let times := deque_append FRAME_WINDOW (frame_times pm) (current_time - last_time pm) in
  if decide (0 < length times)%nat then
    let avg := sum times / INR (length times) in
    if decide (avg = 0) then
      (mkPerformanceMonitor times (fps pm) current_time, None)
    else
      (mkPerformanceMonitor times (1 / avg) current_time, Some (1 / avg))
  else
    (mkPerformanceMonitor times (fps pm) current_time, Some (fps pm)).

(** [update] called at consecutive clock readings; the run stops at the
    first exception. *)
Fixpoint run_updates (pm : PerformanceMonitor) (ts : list R) : option PerformanceMonitor :=
  match ts with
  | [] => Some pm
  | t :: rest =>
      match PerformanceMonitor_update pm t with
      | (pm', Some _) => run_updates pm' rest
      | (_, None) => None
      end
  end.

(** Clock readings that strictly increase, the first one from [start]. *)
Fixpoint increasing (start : R) (ts : list R) : Prop :=
  match ts with
  | [] => True
  | t :: rest => start < t /\ increasing t rest
  end.

(** ** face_tracker.py: class FaceTracker *)

(** The class of [src/face_tracker.py], which [app.py] imports and then
    replaces by its own class of the same name. *)
Module face_tracker.

(** [cap] tells whether [self.cap] holds a capture object (it is [None]
    otherwise); the classifier [face_cascade] is fixed at construction. *)
Record FaceTracker : Type := mkFaceTracker {
  is_tracking : bool;
  sensitivity : R;
  cap : bool;
  calibrated : bool
}.

(** How a method call ends: it returns, or it raises (after logging, every
    handler of the class raises again). *)
Inductive outcome : Type := Returned | Raised.

Definition init : FaceTracker := mkFaceTracker false 1 false false.

(** [start_tracking()], with [opened] the answer of [cap.isOpened()] for the
    capture it creates.  When the camera does not open, the handler clears
    [is_tracking], releases the capture and raises again. *)
Definition start_tracking (ft : FaceTracker) (opened : bool) : FaceTracker * outcome :=
  if negb (is_tracking ft) then
    if opened
    then (mkFaceTracker true (sensitivity ft) true (calibrated ft), Returned)
    else (mkFaceTracker false (sensitivity ft) false (calibrated ft), Raised)
  else (ft, Returned).

Definition stop_tracking (ft : FaceTracker) : FaceTracker * outcome :=
  (mkFaceTracker false (sensitivity ft) false (calibrated ft), Returned).

Definition reset_calibration (ft : FaceTracker) : FaceTracker * outcome :=
  (mkFaceTracker (is_tracking ft) (sensitivity ft) (cap ft) false, Returned).

(** The loop of [calibrate]: up to [n] reads from read number [i] on;
    [reads k] is [None] when read [k] fails and [Some faces] when it gives a
    frame, [faces] telling whether a face is detected in it.  The result is
    the number of reads made and whether a face was found. *)
Fixpoint scan (reads : nat -> option bool) (i n : nat) : nat * bool :=
  match n with
  | O => (O, false)
  | S n' =>
      match reads i with
      | Some true => (1%nat, true)
      | _ => let '(k, found) := scan reads (S i) n' in (S k, found)
      end
  end.

(** [calibrate()]: the tracker after it, how it ends and the number of
    frames it read.  Without a capture object the first read raises. *)
Definition calibrate (ft : FaceTracker) (reads : nat -> option bool)
    : FaceTracker * outcome * nat :=
  if negb (is_tracking ft) then (ft, Raised, 0%nat)
  else if negb (cap ft) then (ft, Raised, 0%nat)
  else
    let '(k, found) := scan reads 0 10 in
    if found
    then (mkFaceTracker (is_tracking ft) (sensitivity ft) (cap ft) true, Returned, k)
    else (ft, Raised, k).

(** [set_sensitivity(value)]: [max(0.1, min(2.0, float(value)))]. *)
Definition set_sensitivity (float_of_str : string -> option R) (ft : FaceTracker)
    (value : PyVal) : FaceTracker * result unit :=
  match py_float float_of_str value with
  | Ok v =>
      (mkFaceTracker (is_tracking ft) (Rmax (1 / 10) (Rmin 2 v)) (cap ft)
         (calibrated ft), Ok tt)
  | Raise e => (ft, Raise e)
  end.

(** A tracking object holds a capture. *)
Definition holds_capture (ft : FaceTracker) : Prop :=
  is_tracking ft = true -> cap ft = true.

End face_tracker.

(** ** More runs and predicates of the statements *)

(** [detect_mouth_open] called on consecutive frames. *)
Fixpoint run_mouth (g : GestureDetector) (threshold : R)
    (frames : list (landmarks * R)) : GestureDetector * list bool :=
  match frames with
  | [] => (g, [])
  | (lm, t) :: rest =>
      let '(g, b) := detect_mouth_open g lm threshold t in
      let '(g, bs) := run_mouth g threshold rest in
      (g, b :: bs)
  end.

(** The clock readings of the frames that fired an event. *)
Fixpoint event_times (frames : list (landmarks * R)) (events : list bool) : list R :=
  match frames, events with
  | (_, t) :: fs, b :: bs =>
      if b then t :: event_times fs bs else event_times fs bs
  | _, _ => []
  end.

(** Each time of [ts] is at least [cooldown] past the one before it, the
    first one past [last]. *)
Fixpoint spaced (cooldown last : R) (ts : list R) : Prop :=
  match ts with
  | [] => True
  | t :: rest => t - last >= cooldown /\ spaced cooldown t rest
  end.



(** The state the tracker keeps sound: a calibrated tracker has a
    reference point, and the buffer holds at most [CALIBRATION_FRAMES]
    points. *)
Definition tracker_ok (ft : FaceTracker) : Prop :=
  (is_calibrated ft = true -> is_Some (reference_point ft))
  /\ (length (calibration_points ft) <= Config.CALIBRATION_FRAMES)%nat.

(** What no frame changes: the switches, the screen size and the settings
    of the active profile. *)
Definition same_configuration (ft ft' : FaceTracker) : Prop :=
  is_tracking ft' = is_tracking ft
  /\ is_paused ft' = is_paused ft
  /\ screen_w ft' = screen_w ft
  /\ screen_h ft' = screen_h ft
  /\ set_calibration_data (current_profile ft') None
     = set_calibration_data (current_profile ft) None.

(** The velocity before the acceleration step of [update_position]. *)
Definition blended_velocity (v : point) (displacement : point) : point :=
  vadd (vscale v Config.SMOOTH_FACTOR)
       (vscale (vscale (expand displacement.1, expand displacement.2)
                       Config.MOUSE_SPEED)
               (1 - Config.SMOOTH_FACTOR)).



(** A full buffer of a head nodding on a vertical line: the column is 320 on
    every frame. *)
Definition nodding_points : list point :=
  (fun i : nat => (320, 230 + INR i)) <$> seq 0 15.

(** A payload that sets three settings. *)
Definition valid_payload : gmap string PyVal :=
  <["sensitivity"%string := PyNum 2]>
    (<["mouth_threshold"%string := PyBool true]>
       (<["region_bounds"%string := corner_region]> ∅)).

(** * Properties *)

(** Nothing is a member of the empty effect list. *)
Ltac no_effect :=
  let H := fresh "H" in
  intros H; apply not_elem_of_nil in H; contradiction.

(** ** Numeric lemmas *)

Lemma norm_nonneg (v : point) : 0 <= norm v.
Proof. apply sqrt_pos. Qed.

Lemma norm_self (p : point) : norm (vsub p p) = 0.
Proof.
  unfold norm, vsub; simpl.
  replace ((p.1 - p.1) * (p.1 - p.1) + (p.2 - p.2) * (p.2 - p.2)) with 0 by ring.
  apply sqrt_0.
Qed.

(** ** The guarded division *)

(** The guard keeps the divisor away from zero: the ratio is finite. *)
Lemma aspect_ratio_finite (a1 a2 b1 b2 h1 h2 : point) :
  aspect_ratio_np a1 a2 b1 b2 h1 h2
  = Finite (if decide (norm (vsub h1 h2) > 0)
            then (norm (vsub a1 a2) + norm (vsub b1 b2)) / (2 * norm (vsub h1 h2))
            else 0).
Proof.
  unfold aspect_ratio_np, np_divide.
  destruct (decide (norm (vsub h1 h2) > 0)) as [Hh|_]; [|reflexivity].
  destruct (decide (2 * norm (vsub h1 h2) = 0)) as [Hz|_]; [lra | reflexivity].
Qed.

Lemma aspect_ratio_eq (a1 a2 b1 b2 h1 h2 : point) :
  aspect_ratio a1 a2 b1 b2 h1 h2
  = if decide (norm (vsub h1 h2) > 0)
    then (norm (vsub a1 a2) + norm (vsub b1 b2)) / (2 * norm (vsub h1 h2))
    else 0.
Proof. unfold aspect_ratio. rewrite aspect_ratio_finite. reflexivity. Qed.

(** The number [get_eye_aspect_ratio] returns, from the points it reads. *)
Lemma get_eye_aspect_ratio_eq (lm : landmarks) (start end_ : nat) :
  get_eye_aspect_ratio lm start end_
  = default 0 (eye_points ← collect_parts lm start (end_ + 1);
               p1 ← eye_points !! 1%nat;
               p5 ← eye_points !! 5%nat;
               p2 ← eye_points !! 2%nat;
               p4 ← eye_points !! 4%nat;
               p0 ← eye_points !! 0%nat;
               p3 ← eye_points !! 3%nat;
               Some (aspect_ratio p1 p5 p2 p4 p0 p3)).
Proof.
  unfold get_eye_aspect_ratio, get_eye_aspect_ratio_np, eye_aspect_ratio_body.
  destruct (collect_parts lm start (end_ + 1)) as [pts|]; [|reflexivity]. simpl.
  destruct (pts !! 1%nat); [|reflexivity]; simpl.
  destruct (pts !! 5%nat); [|reflexivity]; simpl.
  destruct (pts !! 2%nat); [|reflexivity]; simpl.
  destruct (pts !! 4%nat); [|reflexivity]; simpl.
  destruct (pts !! 0%nat); [|reflexivity]; simpl.
  destruct (pts !! 3%nat); reflexivity.
Qed.

(** What [get_eye_aspect_ratio] returns is a number. *)
Lemma eye_ratio_finite (lm : landmarks) (start end_ : nat) :
  get_eye_aspect_ratio_np lm start end_ = Finite (get_eye_aspect_ratio lm start end_).
Proof.
  unfold get_eye_aspect_ratio.
  unfold get_eye_aspect_ratio_np, eye_aspect_ratio_body.
  destruct (collect_parts lm start (end_ + 1)) as [pts|]; [|reflexivity]. simpl.
  destruct (pts !! 1%nat); [|reflexivity]; simpl.
  destruct (pts !! 5%nat); [|reflexivity]; simpl.
  destruct (pts !! 2%nat); [|reflexivity]; simpl.
  destruct (pts !! 4%nat); [|reflexivity]; simpl.
  destruct (pts !! 0%nat); [|reflexivity]; simpl.
  destruct (pts !! 3%nat); [|reflexivity]; simpl.
  rewrite aspect_ratio_finite. reflexivity.
Qed.

Lemma get_mouth_aspect_ratio_eq (lm : landmarks) :
  get_mouth_aspect_ratio lm
  = default 0 (mouth_points ← collect_parts lm 60 68;
               m2 ← mouth_points !! 2%nat;
               m6 ← mouth_points !! 6%nat;
               m3 ← mouth_points !! 3%nat;
               m5 ← mouth_points !! 5%nat;
               m0 ← mouth_points !! 0%nat;
               m4 ← mouth_points !! 4%nat;
               Some (aspect_ratio m2 m6 m3 m5 m0 m4)).
Proof.
  unfold get_mouth_aspect_ratio, get_mouth_aspect_ratio_np, mouth_aspect_ratio_body.
  destruct (collect_parts lm 60 68) as [pts|]; [|reflexivity]. simpl.
  destruct (pts !! 2%nat); [|reflexivity]; simpl.
  destruct (pts !! 6%nat); [|reflexivity]; simpl.
  destruct (pts !! 3%nat); [|reflexivity]; simpl.
  destruct (pts !! 5%nat); [|reflexivity]; simpl.
  destruct (pts !! 0%nat); [|reflexivity]; simpl.
  destruct (pts !! 4%nat); reflexivity.
Qed.

Lemma aspect_ratio_flat (a1 a2 b1 b2 h1 h2 : point) :
  norm (vsub h1 h2) = 0 -> aspect_ratio a1 a2 b1 b2 h1 h2 = 0.
Proof.
  intros Hh. rewrite aspect_ratio_eq. rewrite Hh.
  destruct (decide (0 > 0)) as [Hgt|_]; [lra | reflexivity].
Qed.

(** ** Landmark access *)

Lemma collect_parts_lookup (lm : landmarks) (start stop k : nat) (pts : list point) (p : point) :
  collect_parts lm start stop = Some pts ->
  pts !! k = Some p -> lm !! (start + k)%nat = Some p.
Proof.
  unfold collect_parts. intros Hm Hk.
  apply mapM_Some_1 in Hm.
  destruct (Forall2_lookup_r _ _ _ _ _ Hm Hk) as (i & Hi & Hp).
  apply lookup_seq in Hi as [-> _]. exact Hp.
Qed.



(** An eye without width has ratio 0, and so has an eye whose landmarks
    cannot be read. *)
Lemma eye_ratio_flat (lm : landmarks) (start end_ : nat) :
  (forall p0 p3, lm !! start = Some p0 -> lm !! (start + 3)%nat = Some p3 ->
                 norm (vsub p0 p3) = 0) ->
  get_eye_aspect_ratio lm start end_ = 0.
Proof.
  intros Hflat. rewrite get_eye_aspect_ratio_eq.
  destruct (collect_parts lm start (end_ + 1)) as [pts|] eqn:Hpts; [|reflexivity].
  simpl.
  destruct (pts !! 1%nat) as [p1|]; [|reflexivity]; simpl.
  destruct (pts !! 5%nat) as [p5|]; [|reflexivity]; simpl.
  destruct (pts !! 2%nat) as [p2|]; [|reflexivity]; simpl.
  destruct (pts !! 4%nat) as [p4|]; [|reflexivity]; simpl.
  destruct (pts !! 0%nat) as [p0|] eqn:H0; [|reflexivity]; simpl.
  destruct (pts !! 3%nat) as [p3|] eqn:H3; [|reflexivity]; simpl.
  apply aspect_ratio_flat, Hflat.
  - pose proof (collect_parts_lookup _ _ _ _ _ _ Hpts H0) as H.
    rewrite Nat.add_0_r in H. exact H.
  - exact (collect_parts_lookup _ _ _ _ _ _ Hpts H3).
Qed.

Lemma mouth_ratio_flat (lm : landmarks) :
  (forall m0 m4, lm !! 60%nat = Some m0 -> lm !! 64%nat = Some m4 ->
                 norm (vsub m0 m4) = 0) ->
  get_mouth_aspect_ratio lm = 0.
Proof.
  intros Hflat. rewrite get_mouth_aspect_ratio_eq.
  destruct (collect_parts lm 60 68) as [pts|] eqn:Hpts; [|reflexivity].
  simpl.
  destruct (pts !! 2%nat) as [m2|]; [|reflexivity]; simpl.
  destruct (pts !! 6%nat) as [m6|]; [|reflexivity]; simpl.
  destruct (pts !! 3%nat) as [m3|]; [|reflexivity]; simpl.
  destruct (pts !! 5%nat) as [m5|]; [|reflexivity]; simpl.
  destruct (pts !! 0%nat) as [m0|] eqn:H0; [|reflexivity]; simpl.
  destruct (pts !! 4%nat) as [m4|] eqn:H4; [|reflexivity]; simpl.
  apply aspect_ratio_flat, Hflat.
  - exact (collect_parts_lookup _ _ _ _ _ _ Hpts H0).
  - exact (collect_parts_lookup _ _ _ _ _ _ Hpts H4).
Qed.

(** Without width the guard answers, and the division is not reached. *)
Lemma aspect_ratio_np_flat (a1 a2 b1 b2 h1 h2 : point) :
  norm (vsub h1 h2) = 0 -> aspect_ratio_np a1 a2 b1 b2 h1 h2 = Finite 0.
Proof.
  intros Hh. unfold aspect_ratio_np. rewrite Hh.
  destruct (decide (0 > 0)) as [Hgt|_]; [lra | reflexivity].
Qed.

(** The division the guard keeps away from: a zero divisor gives no
    number. *)
Lemma np_divide_zero_width (v h : R) : h = 0 -> np_divide v (2 * h) = NotFinite.
Proof.
  intros ->. unfold np_divide.
  destruct (decide (2 * 0 = 0)) as [_|Hn]; [reflexivity | exfalso; lra].
Qed.

(** A landmark set that reaches [stop] lets the loop read every part. *)
Lemma collect_parts_total (lm : landmarks) (start stop : nat) :
  (stop <= length lm)%nat ->
  exists pts, collect_parts lm start stop = Some pts
              /\ length pts = (stop - start)%nat.
Proof.
  intros Hl.
  assert (Hs : is_Some (collect_parts lm start stop)).
  { unfold collect_parts. apply mapM_is_Some, Forall_forall.
    intros i Hi. apply elem_of_seq in Hi. simpl.
    apply lookup_lt_is_Some_2. lia. }
  destruct Hs as [pts E]. exists pts. split; [exact E|].
  unfold collect_parts in E. apply mapM_Some_1, Forall2_length in E.
  rewrite length_seq in E. congruence.
Qed.

(** The [try] body of [get_eye_aspect_ratio] returns when the landmark set
    reaches [end] and the range holds six landmarks. *)
Lemma eye_body_returns (lm : landmarks) (start end_ : nat) :
  (start + 5 <= end_)%nat -> (end_ < length lm)%nat ->
  exists p0 p1 p2 p3 p4 p5,
    lm !! start = Some p0 /\ lm !! (start + 3)%nat = Some p3
    /\ eye_aspect_ratio_body lm start end_
       = Some (aspect_ratio_np p1 p5 p2 p4 p0 p3).
Proof.
  intros Hs Hl.
  destruct (collect_parts_total lm start (end_ + 1)) as (pts & E & Hlen); [lia|].
  destruct (lookup_lt_is_Some_2 pts 0) as [p0 H0]; [lia|].
  destruct (lookup_lt_is_Some_2 pts 1) as [p1 H1]; [lia|].
  destruct (lookup_lt_is_Some_2 pts 2) as [p2 H2]; [lia|].
  destruct (lookup_lt_is_Some_2 pts 3) as [p3 H3]; [lia|].
  destruct (lookup_lt_is_Some_2 pts 4) as [p4 H4]; [lia|].
  destruct (lookup_lt_is_Some_2 pts 5) as [p5 H5]; [lia|].
  exists p0, p1, p2, p3, p4, p5. split; [|split].
  - pose proof (collect_parts_lookup _ _ _ _ _ _ E H0) as H.
    rewrite Nat.add_0_r in H. exact H.
  - exact (collect_parts_lookup _ _ _ _ _ _ E H3).
  - unfold eye_aspect_ratio_body. rewrite E. simpl.
    rewrite H1. simpl. rewrite H5. simpl. rewrite H2. simpl.
    rewrite H4. simpl. rewrite H0. simpl. rewrite H3. reflexivity.
Qed.

(** What the [try] body of [get_eye_aspect_ratio] returns on an eye without
    width, when it returns. *)
Lemma eye_body_flat (lm : landmarks) (start end_ : nat) (p0 p3 : point) (x : np_float) :
  lm !! start = Some p0 ->
  lm !! (start + 3)%nat = Some p3 ->
  norm (vsub p0 p3) = 0 ->
  eye_aspect_ratio_body lm start end_ = Some x -> x = Finite 0.
Proof.
  intros L0 L3 Hh. unfold eye_aspect_ratio_body.
  destruct (collect_parts lm start (end_ + 1)) as [pts|] eqn:Hpts; [|discriminate].
  simpl.
  destruct (pts !! 1%nat) as [q1|]; [|discriminate]; simpl.
  destruct (pts !! 5%nat) as [q5|]; [|discriminate]; simpl.
  destruct (pts !! 2%nat) as [q2|]; [|discriminate]; simpl.
  destruct (pts !! 4%nat) as [q4|]; [|discriminate]; simpl.
  destruct (pts !! 0%nat) as [q0|] eqn:H0; [|discriminate]; simpl.
  destruct (pts !! 3%nat) as [q3|] eqn:H3; [|discriminate]; simpl.
  intros [= <-]. apply aspect_ratio_np_flat.
  pose proof (collect_parts_lookup _ _ _ _ _ _ Hpts H0) as E0.
  rewrite Nat.add_0_r in E0.
  pose proof (collect_parts_lookup _ _ _ _ _ _ Hpts H3) as E3.
  congruence.
Qed.

(** C8. For every landmark set in which the horizontal eye distance, the
    distance between the eye points p0 and p3, is zero,
    [get_eye_aspect_ratio] returns 0 and no division by zero takes place.
    The division by that distance would give no number; the guard
    [if h > 0 else 0.0] answers in its place: the [try] body itself returns
    0 when the six eye landmarks can be read, it returns nothing else when
    it returns at all, and the function returns 0, a finite number, in
    every case. *)
Theorem eye_aspect_ratio_zero_width (lm : landmarks) (start end_ : nat) (p0 p3 : point) :
  lm !! start = Some p0 ->
  lm !! (start + 3)%nat = Some p3 ->
  norm (vsub p0 p3) = 0 ->
  (forall v, np_divide v (2 * norm (vsub p0 p3)) = NotFinite)
  /\ ((start + 5 <= end_)%nat -> (end_ < length lm)%nat ->
      eye_aspect_ratio_body lm start end_ = Some (Finite 0))
  /\ (forall x, eye_aspect_ratio_body lm start end_ = Some x -> x = Finite 0)
  /\ get_eye_aspect_ratio_np lm start end_ = Finite 0
  /\ get_eye_aspect_ratio lm start end_ = 0.
Proof.
  intros H0 H3 Hh.
  assert (Hbody : forall x, eye_aspect_ratio_body lm start end_ = Some x -> x = Finite 0)
    by (intros x; exact (eye_body_flat lm start end_ p0 p3 x H0 H3 Hh)).
  assert (Hnp : get_eye_aspect_ratio_np lm start end_ = Finite 0).
  { unfold get_eye_aspect_ratio_np.
    destruct (eye_aspect_ratio_body lm start end_) as [x|] eqn:E; [|reflexivity].
    simpl. apply Hbody. reflexivity. }
  split; [intros v; apply np_divide_zero_width, Hh|].
  split; [|split; [exact Hbody|split; [exact Hnp|]]].
  - intros Hs Hl.
    destruct (eye_body_returns lm start end_ Hs Hl)
      as (q0 & q1 & q2 & q3 & q4 & q5 & _ & _ & E).
    rewrite E. f_equal. apply Hbody. exact E.
  - unfold get_eye_aspect_ratio. rewrite Hnp. reflexivity.
Qed.

Lemma eye_aspect_ratio_zero_width_witness :
  let lm := [(3, 4); (3, 5); (4, 5); (3, 4); (4, 3); (3, 3)] in
  eye_aspect_ratio_body lm 0 5 = Some (Finite 0)
  /\ get_eye_aspect_ratio lm 0 5 = 0.
Proof.
  intros lm.
  destruct (eye_aspect_ratio_zero_width lm 0 5 (3, 4) (3, 4) eq_refl eq_refl
              (norm_self (3, 4)))
    as (_ & Hbody & _ & _ & Hret).
  split; [|exact Hret].
  apply Hbody; simpl; lia.
Defined.

(** ** The blink and mouth detectors, one frame *)

Lemma detect_blink_closed (g : GestureDetector) (lm : landmarks) (threshold t : R) :
  blink_ear lm < threshold ->
  detect_blink g lm threshold t = (set_eye_ar_counter g (eye_ar_counter g + 1), false).
Proof.
  intros Hc. unfold detect_blink.
  destruct (decide (blink_ear lm < threshold)); [reflexivity | contradiction].
Qed.



(** The four outcomes of one [detect_blink] call. *)
Lemma detect_blink_cases (g g' : GestureDetector) (lm : landmarks) (threshold t : R) (b : bool) :
  detect_blink g lm threshold t = (g', b) ->
  (blink_ear lm < threshold /\ b = false
     /\ g' = set_eye_ar_counter g (eye_ar_counter g + 1))
  \/ (~ blink_ear lm < threshold /\ b = true
     /\ (Config.EYE_AR_CONSEC_FRAMES <= eye_ar_counter g)%nat
     /\ t - last_blink_time g >= Config.BLINK_COOLDOWN
     /\ g' = set_last_blink_time g t)
  \/ (~ blink_ear lm < threshold /\ b = false /\ g' = set_eye_ar_counter g 0).
Proof.
  unfold detect_blink. intros H.
  destruct (decide (blink_ear lm < threshold)).
  { left. inversion H. auto. }
  right.
  destruct (decide (Config.EYE_AR_CONSEC_FRAMES <= eye_ar_counter g)%nat).
  - destruct (decide (t - last_blink_time g >= Config.BLINK_COOLDOWN));
      inversion H; [left | right]; auto.
  - right. inversion H. auto.
Qed.

Lemma detect_mouth_open_cases (g g' : GestureDetector) (lm : landmarks) (threshold t : R) (b : bool) :
  detect_mouth_open g lm threshold t = (g', b) ->
  (get_mouth_aspect_ratio lm > threshold /\ b = false
     /\ g' = set_mouth_ar_counter g (mouth_ar_counter g + 1))
  \/ (~ get_mouth_aspect_ratio lm > threshold /\ b = true
     /\ (Config.MOUTH_AR_CONSEC_FRAMES <= mouth_ar_counter g)%nat
     /\ t - last_mouth_time g >= Config.MOUTH_COOLDOWN
     /\ g' = set_last_mouth_time g t)
  \/ (~ get_mouth_aspect_ratio lm > threshold /\ b = false
     /\ g' = set_mouth_ar_counter g 0).
Proof.
  unfold detect_mouth_open. intros H.
  destruct (decide (get_mouth_aspect_ratio lm > threshold)).
  { left. inversion H. auto. }
  right.
  destruct (decide (Config.MOUTH_AR_CONSEC_FRAMES <= mouth_ar_counter g)%nat).
  - destruct (decide (t - last_mouth_time g >= Config.MOUTH_COOLDOWN));
      inversion H; [left | right]; auto.
  - right. inversion H. auto.
Qed.

(** ** Runs of the blink detector *)




(** ** The sample frames *)




Lemma flat_face_lookup (i : nat) (p : point) :
  flat_face !! i = Some p -> p = (100, 100).
Proof.
  unfold flat_face. intros H.
  apply list_elem_of_lookup_2, elem_of_replicate in H. tauto.
Qed.

Lemma blink_ear_flat_face : blink_ear flat_face = 0.
Proof.
  unfold blink_ear.
  rewrite !eye_ratio_flat; [field | |];
    intros p0 p3 H0 H3;
    rewrite (flat_face_lookup _ _ H0), (flat_face_lookup _ _ H3);
    apply norm_self.
Qed.

Lemma mouth_ratio_flat_face : get_mouth_aspect_ratio flat_face = 0.
Proof.
  apply mouth_ratio_flat. intros m0 m4 H0 H4.
  rewrite (flat_face_lookup _ _ H0), (flat_face_lookup _ _ H4).
  apply norm_self.
Qed.




(** ** Pause and tracking switches *)

(** C9. Calling [toggle_pause] twice with no frame in between gives back the
    state it started from: velocity, reference point, calibration buffer and
    both gesture counters are unchanged, and so is every other field. *)
Theorem toggle_pause_twice (ft : FaceTracker) :
  let ft2 := (toggle_pause (toggle_pause ft).1).1 in
  ft2 = ft
  /\ velocity ft2 = velocity ft
  /\ reference_point ft2 = reference_point ft
  /\ calibration_points ft2 = calibration_points ft
  /\ eye_ar_counter (gesture_detector ft2) = eye_ar_counter (gesture_detector ft)
  /\ mouth_ar_counter (gesture_detector ft2) = mouth_ar_counter (gesture_detector ft).
Proof.
  destruct ft as [v w h c pts r lu g paused tr prof lc].
  unfold toggle_pause, set_is_paused; simpl.
  rewrite negb_involutive. repeat split.
Qed.

Lemma update_position_not_ready (ft : FaceTracker) (face_point : point)
    (current_time : R) (cur : Z * Z) :
  is_calibrated ft = false \/ is_tracking ft = false ->
  update_position ft face_point current_time cur = (ft, None).
Proof.
  intros [H|H]; unfold update_position; rewrite H; simpl; [reflexivity|].
  rewrite orb_true_r. reflexivity.
Qed.

Lemma calibrate_effects_not_move (ft ft' : FaceTracker) (faces : option landmarks)
    (env : FrameEnv) (effs : list effect) (ok : bool) (x y : R) :
  is_calibrated ft = false \/ is_tracking ft = false \/ is_paused ft = true ->
  process_frame ft faces env = (ft', effs, ok) ->
  MoveTo x y ∉ effs.
Proof.
  intros H. unfold process_frame.
  destruct (is_tracking ft); simpl.
  2:{ intros [= <- <- <-]. apply not_elem_of_nil. }
  destruct (is_paused ft); simpl.
  { intros [= <- <- <-]. apply not_elem_of_nil. }
  destruct faces as [lm|].
  2:{ intros [= <- <- <-]. apply not_elem_of_nil. }
  destruct (lm !! 30%nat) as [nose|].
  2:{ intros [= <- <- <-]. apply not_elem_of_nil. }
  destruct (is_calibrated ft); simpl.
  { destruct H as [H|[H|H]]; discriminate. }
  destruct (calibrate ft nose) as [ft1 [|]].
  - unfold save. simpl. destruct (reference_point ft1); intros [= <- <- <-];
      rewrite list_elem_of_singleton; discriminate.
  - intros [= <- <- <-]. apply not_elem_of_nil.
Qed.

(** C5, as the code has it.  [update_position] returns None whenever the
    tracker is not calibrated or not tracking.  It does not look at
    [is_paused]; a paused tracker gets no motion command from
    [process_frame], which issues no [moveTo] in any of the three states. *)
Theorem update_position_none_unless_ready (ft : FaceTracker) (face_point : point)
    (current_time : R) (cur : Z * Z) (faces : option landmarks) (env : FrameEnv) :
  is_calibrated ft = false \/ is_tracking ft = false \/ is_paused ft = true ->
  (is_calibrated ft = false \/ is_tracking ft = false ->
   update_position ft face_point current_time cur = (ft, None))
  /\ (forall x y, MoveTo x y ∉ (process_frame ft faces env).1.2)
  /\ (is_paused ft = true -> process_frame ft faces env = (ft, [], true)).
Proof.
  intros H. split; [apply update_position_not_ready|]. split.
  - intros x y.
    destruct (process_frame ft faces env) as [[ft' effs] ok] eqn:E. simpl.
    exact (calibrate_effects_not_move _ _ _ _ _ _ x y H E).
  - intros Hp. unfold process_frame. rewrite Hp.
    destruct (is_tracking ft); reflexivity.
Qed.

(** ** Clamping and rounding *)

Lemma clip_bounds (a lo hi : R) : lo <= hi -> lo <= clip a lo hi <= hi.
Proof.
  intros H. unfold clip, Rmin, Rmax.
  destruct (Rle_dec a lo); destruct (Rle_dec _ hi); lra.
Qed.

Lemma clip_inside (a lo hi : R) : lo <= a <= hi -> clip a lo hi = a.
Proof.
  intros H. unfold clip, Rmin, Rmax.
  destruct (Rle_dec a lo); destruct (Rle_dec _ hi); lra.
Qed.

Lemma clip_above (a lo hi : R) : hi <= a -> lo <= hi -> clip a lo hi = hi.
Proof.
  intros H1 H2. unfold clip, Rmin, Rmax.
  destruct (Rle_dec a lo); destruct (Rle_dec _ hi); lra.
Qed.

(** Clamping a value of one interval into a second one that meets the first
    keeps it in the first. *)
Lemma clip_keeps_interval (a lo hi lo' hi' : R) :
  lo <= a <= hi -> Rmax lo lo' <= Rmin hi hi' ->
  lo <= clip a lo' hi' <= hi.
Proof.
  unfold clip, Rmin, Rmax. intros Ha.
  destruct (Rle_dec lo lo'); destruct (Rle_dec hi hi');
    destruct (Rle_dec a lo'); destruct (Rle_dec _ hi'); lra.
Qed.

Lemma astype_int_IZR (z : Z) : astype_int (IZR z) = z.
Proof.
  unfold astype_int. destruct (decide (0 <= IZR z)).
  - symmetry. apply Int_part_spec. lra.
  - rewrite <- opp_IZR. rewrite <- (Int_part_spec (IZR (- z)) (- z)%Z) by lra. lia.
Qed.

Lemma astype_int_bounds (x : R) (a b : Z) :
  (0 <= a)%Z -> IZR a <= x <= IZR b -> (a <= astype_int x <= b)%Z.
Proof.
  intros Ha [Hax Hxb].
  assert (0 <= x) by (apply IZR_le in Ha; lra).
  unfold astype_int. destruct (decide (0 <= x)); [|contradiction].
  destruct (base_Int_part x) as [Hle Hgt]. split.
  - assert (IZR (a - 1) < IZR (Int_part x)) by (rewrite minus_IZR; lra).
    apply lt_IZR in H0. lia.
  - apply le_IZR. lra.
Qed.

(** ** The velocity at rest *)

Lemma expand_0 : expand 0 = 0.
Proof.
  unfold expand, sign.
  destruct (decide (0 < 0)); [lra|]. destruct (decide (0 < 0)); [lra|]. ring.
Qed.

Lemma next_velocity_rest (p : point) : next_velocity (0, 0) (vsub p p) = (0, 0).
Proof.
  unfold next_velocity, vsub; simpl.
  replace (p.1 - p.1) with 0 by ring. replace (p.2 - p.2) with 0 by ring.
  rewrite expand_0.
  set (v := vadd _ _).
  assert (Hv : v = (0, 0)).
  { unfold v, vadd, vscale; simpl. f_equal; ring. }
  rewrite Hv.
  destruct (decide (norm (0, 0) > Config.MOVEMENT_THRESHOLD)) as [Hgt|_];
    unfold vscale; simpl; f_equal; ring.
Qed.

(** A calibrated, tracking head resting on its reference point leaves the
    cursor where it is (inside the padded screen). *)
Lemma update_position_rest (ft : FaceTracker) (p : point) (t : R) (x y : Z) :
  is_calibrated ft = true -> is_tracking ft = true ->
  reference_point ft = Some p -> velocity ft = (0, 0) ->
  (Config.SCREEN_PADDING <= x <= screen_w ft - Config.SCREEN_PADDING)%Z ->
  (Config.SCREEN_PADDING <= y <= screen_h ft - Config.SCREEN_PADDING)%Z ->
  update_position ft p t (x, y) = (set_velocity (set_last_update ft t) (0, 0), Some (x, y)).
Proof.
  intros Hc Ht Hr Hv [Hx1 Hx2] [Hy1 Hy2]. unfold update_position.
  rewrite Hc, Ht. simpl. rewrite Hr, Hv, next_velocity_rest. simpl.
  replace (IZR x + 0 * (t - last_update ft)) with (IZR x) by ring.
  replace (IZR y + 0 * (t - last_update ft)) with (IZR y) by ring.
  apply IZR_le in Hx1, Hx2, Hy1, Hy2.
  rewrite !clip_inside by lra.
  rewrite !astype_int_IZR. reflexivity.
Qed.

(** C5, counterexample.  A calibrated and tracking but paused tracker still
    gets a cursor target from [update_position]. *)
Lemma update_position_paused_returns_target :
  is_paused paused_tracker = true
  /\ (update_position paused_tracker (320, 240) 1 (500, 500)%Z).2 = Some (500, 500)%Z.
Proof.
  split; [reflexivity|].
  rewrite (update_position_rest paused_tracker (320, 240) 1 500 500);
    try reflexivity; simpl; unfold Config.SCREEN_PADDING; lia.
Qed.

Lemma update_position_none_unless_ready_witness :
  (is_calibrated paused_tracker = false \/ is_tracking paused_tracker = false ->
   update_position paused_tracker (320, 240) 1 (500, 500)%Z = (paused_tracker, None))
  /\ (forall x y, MoveTo x y ∉
        (process_frame paused_tracker (Some flat_face)
           (mkFrameEnv 1 1 1 1 1 (500, 500)%Z)).1.2)
  /\ (is_paused paused_tracker = true ->
      process_frame paused_tracker (Some flat_face)
        (mkFrameEnv 1 1 1 1 1 (500, 500)%Z) = (paused_tracker, [], true)).
Proof.
  apply (update_position_none_unless_ready paused_tracker (320, 240) 1 (500, 500)%Z
           (Some flat_face) (mkFrameEnv 1 1 1 1 1 (500, 500)%Z)).
  right. right. reflexivity.
Defined.

(** C6, counterexample.  [toggle_tracking] leaves the stored reference point
    as it is when tracking stops. *)
Lemma toggle_tracking_keeps_reference :
  is_tracking (tracking_at (320, 240)) = true
  /\ reference_point (toggle_tracking (tracking_at (320, 240))).1 = Some (320, 240).
Proof. split; reflexivity. Qed.

(** C6, as the code has it.  Called in the Tracking state, [toggle_tracking]
    turns tracking off, clears the [is_calibrated] flag and empties the
    calibration buffer; the stored reference point is kept but cannot be
    used, since [update_position] returns None until a calibration commits.
    Turning tracking on again gives a tracking, uncalibrated state with an
    empty buffer, in which the next frame with a face starts a new
    calibration. *)
Theorem toggle_tracking_invalidates_calibration (ft : FaceTracker) :
  is_tracking ft = true ->
  let off := (toggle_tracking ft).1 in
  let on := (toggle_tracking off).1 in
  (toggle_tracking ft).2 = false
  /\ is_tracking off = false
  /\ is_calibrated off = false
  /\ calibration_points off = []
  /\ reference_point off = reference_point ft
  /\ (forall p t cur, update_position off p t cur = (off, None))
  /\ is_tracking on = true
  /\ is_calibrated on = false
  /\ calibration_points on = []
  /\ (forall p t cur, update_position on p t cur = (on, None))
  /\ (forall lm nose env, is_paused ft = false -> lm !! 30%nat = Some nose ->
        (process_frame on (Some lm) env).1.1 = set_calibration_points on [nose]).
Proof.
  intros Ht. destruct ft as [v w h c pts r lu g paused tr prof lc].
  simpl in Ht. subst tr. cbv zeta.
  unfold toggle_tracking; simpl.
  repeat split.
  intros lm nose env Hp Hn. simpl in Hp. subst paused.
  unfold process_frame; simpl. rewrite Hn. reflexivity.
Qed.

Lemma toggle_tracking_invalidates_calibration_witness :
  is_tracking (toggle_tracking (tracking_at (320, 240))).1 = false
  /\ is_calibrated (toggle_tracking (tracking_at (320, 240))).1 = false
  /\ calibration_points (toggle_tracking (tracking_at (320, 240))).1 = [].
Proof.
  destruct (toggle_tracking_invalidates_calibration (tracking_at (320, 240)) eq_refl)
    as (_ & H1 & H2 & H3 & _).
  repeat split; assumption.
Defined.

(** ** The cursor target *)

Lemma update_position_frame (ft ft' : FaceTracker) (p : point) (t : R) (cur : Z * Z)
    (r : option (Z * Z)) :
  update_position ft p t cur = (ft', r) ->
  current_profile ft' = current_profile ft
  /\ screen_w ft' = screen_w ft /\ screen_h ft' = screen_h ft
  /\ is_paused ft' = is_paused ft.
Proof.
  unfold update_position.
  destruct (negb (is_calibrated ft) || negb (is_tracking ft)).
  { intros [= <- <-]. auto. }
  simpl. destruct (reference_point ft); intros [= <- <-]; auto.
Qed.

Lemma update_position_target_bounds (ft ft' : FaceTracker) (p : point) (t : R)
    (cur : Z * Z) (x y : Z) :
  (2 * Config.SCREEN_PADDING <= screen_w ft)%Z ->
  (2 * Config.SCREEN_PADDING <= screen_h ft)%Z ->
  update_position ft p t cur = (ft', Some (x, y)) ->
  (Config.SCREEN_PADDING <= x <= screen_w ft - Config.SCREEN_PADDING)%Z
  /\ (Config.SCREEN_PADDING <= y <= screen_h ft - Config.SCREEN_PADDING)%Z.
Proof.
  intros Hw Hh. unfold update_position.
  destruct (negb (is_calibrated ft) || negb (is_tracking ft)); [discriminate|].
  simpl. destruct (reference_point ft); [|discriminate].
  intros [= _ <- <-].
  split; (apply astype_int_bounds;
          [unfold Config.SCREEN_PADDING; lia | apply clip_bounds, IZR_le; lia]).
Qed.

Lemma handle_click_effects (ft : FaceTracker) (b : button) (t : R) (e : effect) :
  e ∈ (handle_click ft b t).2 -> e = Click b.
Proof.
  unfold handle_click. destruct (decide _); simpl.
  - rewrite list_elem_of_singleton. auto.
  - no_effect.
Qed.

(** The gesture step only clicks. *)
Lemma gesture_step_effects (ft : FaceTracker) (lm : landmarks) (env : FrameEnv) (e : effect) :
  e ∈ (gesture_step ft lm env).2 -> exists b, e = Click b.
Proof.
  unfold gesture_step.
  destruct (detect_blink _ _ _ _) as [g1 blink].
  set (ft1 := set_gesture_detector ft g1).
  assert (H1 : forall r : FaceTracker * list effect,
             r = (if blink then handle_click ft1 RightButton (t_right_click env)
                  else (ft1, [])) ->
             forall e, e ∈ r.2 -> exists b, e = Click b).
  { intros r -> e'. destruct blink; simpl.
    - intros H. eexists. exact (handle_click_effects _ _ _ _ H).
    - no_effect. }
  destruct (if blink then _ else _) as [ft2 e1] eqn:E1.
  specialize (H1 _ eq_refl). simpl in H1.
  destruct (detect_mouth_open _ _ _ _) as [g2 mouth].
  set (ft3 := set_gesture_detector ft2 g2).
  assert (H2 : forall r : FaceTracker * list effect,
             r = (if mouth then handle_click ft3 LeftButton (t_left_click env)
                  else (ft3, [])) ->
             forall e, e ∈ r.2 -> exists b, e = Click b).
  { intros r -> e'. destruct mouth; simpl.
    - intros H. eexists. exact (handle_click_effects _ _ _ _ H).
    - no_effect. }
  destruct (if mouth then _ else _) as [ft4 e2] eqn:E2.
  specialize (H2 _ eq_refl). simpl in H2. simpl.
  rewrite elem_of_app. intros [H|H]; auto.
Qed.

(** Where the target of the motion step comes from. *)
Lemma move_step_target (ft ft1 : FaceTracker) (nose : point) (env : FrameEnv)
    (moves : list effect) (ok : bool) (tx ty : R) :
  move_step ft nose env = (ft1, moves, ok) ->
  MoveTo tx ty ∈ moves ->
  exists x y,
    update_position ft nose (t_update env) (cursor env) = (ft1, Some (x, y))
    /\ ((truthy (region_bounds (current_profile ft)) = false
         /\ tx = IZR x /\ ty = IZR y)
        \/ (exists x1 y1 x2 y2,
              unpack_region (region_bounds (current_profile ft)) = Some (x1, y1, x2, y2)
              /\ tx = clip (IZR x) x1 x2 /\ ty = clip (IZR y) y1 y2)).
Proof.
  unfold move_step.
  destruct (update_position ft nose (t_update env) (cursor env)) as [ft0 [[x y]|]] eqn:E.
  2:{ intros [= <- <- <-]. no_effect. }
  destruct (update_position_frame _ _ _ _ _ _ E) as (Hp & _).
  rewrite Hp.
  destruct (negb (is_paused ft0)).
  2:{ intros [= <- <- <-]. no_effect. }
  destruct (truthy (region_bounds (current_profile ft))) eqn:Etr.
  - destruct (unpack_region _) as [[[[x1 y1] x2] y2]|] eqn:Eu.
    + intros [= <- <- <-]. rewrite list_elem_of_singleton. intros [= -> ->].
      exists x, y. split; [reflexivity|]. right. exists x1, y1, x2, y2. auto.
    + intros [= <- <- <-]. no_effect.
  - intros [= <- <- <-]. rewrite list_elem_of_singleton. intros [= -> ->].
    exists x, y. split; [reflexivity|]. left. auto.
Qed.

(** A [moveTo] of [process_frame] is the target of its motion step. *)
Lemma process_frame_target (ft : FaceTracker) (faces : option landmarks)
    (env : FrameEnv) (tx ty : R) :
  MoveTo tx ty ∈ (process_frame ft faces env).1.2 ->
  exists lm nose ft1 moves ok,
    faces = Some lm /\ lm !! 30%nat = Some nose
    /\ move_step ft nose env = (ft1, moves, ok)
    /\ MoveTo tx ty ∈ moves.
Proof.
  unfold process_frame.
  destruct (negb (is_tracking ft)).
  { simpl. no_effect. }
  destruct (is_paused ft).
  { simpl. no_effect. }
  destruct faces as [lm|].
  2:{ simpl. no_effect. }
  destruct (lm !! 30%nat) as [nose|] eqn:En.
  2:{ simpl. no_effect. }
  destruct (negb (is_calibrated ft)).
  { destruct (calibrate ft nose) as [ft1 [|]].
    - unfold save. simpl. destruct (reference_point ft1); simpl;
        rewrite list_elem_of_singleton; discriminate.
    - simpl. no_effect. }
  destruct (move_step ft nose env) as [[ft1 moves] ok] eqn:Em.
  intros H. exists lm, nose, ft1, moves, ok.
  split; [reflexivity|]. split; [exact En|]. split; [exact Em|].
  destruct ok; [|exact H].
  pose proof (gesture_step_effects ft1 lm env (MoveTo tx ty)) as Hg.
  destruct (gesture_step ft1 lm env) as [ft2 clicks]. simpl in H, Hg.
  apply elem_of_app in H as [H|H]; [exact H|].
  destruct (Hg H) as [b Hb]. discriminate.
Qed.

Lemma unpack_region_truthy (v : PyVal) (r : R * R * R * R) :
  unpack_region v = Some r -> truthy v = true.
Proof.
  destruct v as [| | | | |l|]; try discriminate.
  destruct l; [discriminate | reflexivity].
Qed.

Lemma region_meets_screen_ordered (ft : FaceTracker) (r : R * R * R * R) :
  region_meets_screen ft r -> region_ordered r.
Proof.
  destruct r as [[[x1 y1] x2] y2]. unfold region_meets_screen, region_ordered, Rmax, Rmin.
  intros [Hx Hy]. split.
  - destruct (Rle_dec _ x1), (Rle_dec _ x2); lra.
  - destruct (Rle_dec _ y1), (Rle_dec _ y2); lra.
Qed.

(** C2, as the code has it.  On a screen of at least twice the padding per
    axis, every target [update_position] returns lies within
    [SCREEN_PADDING, screenDim - SCREEN_PADDING] on both axes.
    [process_frame] then clamps that target to the region rectangle of the
    profile, when one is set: the target it moves the cursor to lies within
    the padded screen when no region is set, within a (non-empty) region
    rectangle when one is set, and within both only when the rectangle meets
    the padded screen on each axis. *)
Theorem cursor_target_clamped (ft : FaceTracker) :
  (2 * Config.SCREEN_PADDING <= screen_w ft)%Z ->
  (2 * Config.SCREEN_PADDING <= screen_h ft)%Z ->
  (forall p t cur ft' x y,
     update_position ft p t cur = (ft', Some (x, y)) ->
     in_padded_screen ft (IZR x) (IZR y))
  /\ (forall faces env tx ty,
        MoveTo tx ty ∈ (process_frame ft faces env).1.2 ->
        (truthy (region_bounds (current_profile ft)) = false ->
         in_padded_screen ft tx ty)
        /\ (forall r,
              unpack_region (region_bounds (current_profile ft)) = Some r ->
              region_ordered r -> in_region r tx ty)
        /\ (forall r,
              unpack_region (region_bounds (current_profile ft)) = Some r ->
              region_meets_screen ft r ->
              in_region r tx ty /\ in_padded_screen ft tx ty)).
Proof.
  intros Hw Hh.
  assert (Hup : forall p t cur ft' x y,
             update_position ft p t cur = (ft', Some (x, y)) ->
             in_padded_screen ft (IZR x) (IZR y)).
  { intros p t cur ft' x y E.
    destruct (update_position_target_bounds _ _ _ _ _ _ _ Hw Hh E) as [[? ?] [? ?]].
    unfold in_padded_screen. repeat split; apply IZR_le; assumption. }
  split; [exact Hup|].
  intros faces env tx ty Hin.
  destruct (process_frame_target _ _ _ _ _ Hin)
    as (lm & nose & ft1 & moves & ok & _ & _ & Em & Hm).
  destruct (move_step_target _ _ _ _ _ _ _ _ Em Hm) as (x & y & E & Hcase).
  specialize (Hup _ _ _ _ _ _ E).
  assert (Hord : forall r,
             unpack_region (region_bounds (current_profile ft)) = Some r ->
             region_ordered r -> in_region r tx ty).
  { intros r Hr Ho. destruct Hcase as [(Htr & _) | (x1 & y1 & x2 & y2 & Hu & -> & ->)].
    - rewrite (unpack_region_truthy _ _ Hr) in Htr. discriminate.
    - rewrite Hu in Hr. injection Hr as <-. destruct Ho as [Hx Hy].
      split; apply clip_bounds; assumption. }
  split; [|split; [exact Hord|]].
  - intros Htr. destruct Hcase as [(_ & -> & ->) | (x1 & y1 & x2 & y2 & Hu & _)].
    + exact Hup.
    + rewrite (unpack_region_truthy _ _ Hu) in Htr. discriminate.
  - intros r Hr Hmeet.
    split; [exact (Hord r Hr (region_meets_screen_ordered _ _ Hmeet))|].
    destruct Hcase as [(Htr & _) | (x1 & y1 & x2 & y2 & Hu & -> & ->)].
    + rewrite (unpack_region_truthy _ _ Hr) in Htr. discriminate.
    + rewrite Hu in Hr. injection Hr as <-.
      destruct Hup as [Hx Hy]. destruct Hmeet as [Mx My].
      split; eapply clip_keeps_interval; eassumption.
Qed.

Lemma cursor_target_clamped_witness :
  (2 * Config.SCREEN_PADDING <= screen_w fresh_tracker)%Z
  /\ (2 * Config.SCREEN_PADDING <= screen_h fresh_tracker)%Z
  /\ (forall p t cur ft' x y,
        update_position (tracking_at (320, 240)) p t cur = (ft', Some (x, y)) ->
        in_padded_screen (tracking_at (320, 240)) (IZR x) (IZR y))
  /\ (forall faces env tx ty,
        MoveTo tx ty ∈ (process_frame (tracking_at (320, 240)) faces env).1.2 ->
        in_padded_screen (tracking_at (320, 240)) tx ty).
Proof.
  assert (Hw : (2 * Config.SCREEN_PADDING <= screen_w (tracking_at (320, 240)%R))%Z)
    by (simpl; unfold Config.SCREEN_PADDING; lia).
  assert (Hh : (2 * Config.SCREEN_PADDING <= screen_h (tracking_at (320, 240)%R))%Z)
    by (simpl; unfold Config.SCREEN_PADDING; lia).
  split; [exact Hw|]. split; [exact Hh|].
  destruct (cursor_target_clamped (tracking_at (320, 240)) Hw Hh) as [Hup Hpf].
  split; [exact Hup|].
  intros faces env tx ty H.
  destruct (Hpf faces env tx ty H) as (Hnone & _).
  apply Hnone. reflexivity.
Defined.

(** C2, counterexample.  With the region lock [0, 0, 10, 10] on a 1920 x 1080
    screen, [process_frame] moves the cursor to (10, 10), outside the padded
    screen [50, 1870] x [50, 1030]. *)
Lemma region_target_leaves_padded_screen :
  (process_frame region_tracker (Some flat_face)
     (mkFrameEnv 1 1 1 1 1 (500, 500)%Z)).1.2 = [MoveTo 10 10]
  /\ ~ in_padded_screen region_tracker 10 10.
Proof.
  split.
  - unfold process_frame.
    change (is_tracking region_tracker) with true.
    change (is_paused region_tracker) with false.
    change (is_calibrated region_tracker) with true.
    change (flat_face !! 30%nat) with (Some ((100, 100) : point)).
    cbv iota beta delta [negb].
    unfold move_step.
    cbn [t_update t_blink t_right_click t_mouth t_left_click cursor].
    rewrite (update_position_rest region_tracker (100, 100) 1 500 500);
      try reflexivity; try (simpl; unfold Config.SCREEN_PADDING; lia).
    simpl.
    rewrite !(clip_above 500 0 10) by lra.
    unfold gesture_step. simpl.
    rewrite detect_blink_closed
      by (rewrite blink_ear_flat_face; unfold Config.BLINK_SENSITIVITY; lra).
    simpl. unfold detect_mouth_open. rewrite mouth_ratio_flat_face.
    destruct (decide (0 > Config.MOUTH_SENSITIVITY));
      [unfold Config.MOUTH_SENSITIVITY in *; lra|].
    reflexivity.
  - unfold in_padded_screen. simpl. unfold Config.SCREEN_PADDING. lra.
Qed.

(** ** Mean and standard deviation *)

Lemma sum_replicate (n : nat) (x : R) : sum (replicate n x) = INR n * x.
Proof.
  induction n as [|n IH].
  - simpl. ring.
  - rewrite S_INR. simpl. fold (sum (replicate n x)). rewrite IH. ring.
Qed.

Lemma map_replicate {A B : Type} (f : A -> B) (n : nat) (x : A) :
  map f (replicate n x) = replicate n (f x).
Proof. induction n as [|n IH]; simpl; [reflexivity | rewrite IH; reflexivity]. Qed.

Lemma mean_replicate (n : nat) (x : R) : (0 < n)%nat -> mean (replicate n x) = x.
Proof.
  intros Hn. unfold mean. rewrite sum_replicate, length_replicate.
  assert (0 < INR n) by (apply lt_0_INR; lia). field. lra.
Qed.

(** A buffer of identical values has no spread. *)
Lemma std_replicate (n : nat) (x : R) : (0 < n)%nat -> std (replicate n x) = 0.
Proof.
  intros Hn. unfold std. rewrite (mean_replicate n x Hn), map_replicate.
  rewrite (mean_replicate n _ Hn).
  replace (x - x) with 0 by ring. rewrite Rabs_R0.
  replace (0 ^ 2) with 0 by ring. apply sqrt_0.
Qed.

Lemma mean_eq (xs : list R) (m : R) :
  (0 < length xs)%nat -> sum xs = m * INR (length xs) -> mean xs = m.
Proof.
  intros Hn Hs. unfold mean. rewrite Hs.
  assert (0 < INR (length xs)) by (apply lt_0_INR; lia). field. lra.
Qed.

(** The test [np.abs(x - mean) < 2 * std], from the variance. *)
Lemma within_two_std (xs : list R) (x m v : R) :
  mean xs = m ->
  mean (map (fun y => Rabs (y - m) ^ 2) xs) = v ->
  (x - m) * (x - m) < 4 * v ->
  Rabs (x - mean xs) < 2 * std xs.
Proof.
  intros Hm Hv Hlt. unfold std. rewrite Hm, Hv.
  assert (Hv0 : 0 <= v).
  { pose proof (Rle_0_sqr (x - m)) as H0. unfold Rsqr in H0. lra. }
  pose proof (sqrt_pos v) as Hs. pose proof (sqrt_sqrt v Hv0) as Hss.
  pose proof (Rabs_pos (x - m)) as Ha.
  pose proof (pow2_abs (x - m)) as Hsq.
  destruct (Rlt_dec (Rabs (x - m)) (2 * sqrt v)) as [|Hge]; [assumption|].
  exfalso. apply Rnot_lt_le in Hge.
  assert (4 * v <= Rabs (x - m) ^ 2) by nra.
  nra.
Qed.

Lemma abs_sq (a : R) : Rabs a * (Rabs a * 1) = a * a.
Proof. pose proof (pow2_abs a) as H. simpl in H. lra. Qed.

Lemma filter_all {A : Type} (P : A -> Prop) `{forall x, Decision (P x)} (l : list A) :
  Forall P l -> filter P l = l.
Proof.
  induction 1 as [|x l Hx _ IH]; [reflexivity|].
  rewrite filter_cons_True by exact Hx. rewrite IH. reflexivity.
Qed.

Lemma filter_none {A : Type} (P : A -> Prop) `{forall x, Decision (P x)} (l : list A) :
  Forall (fun x => ~ P x) l -> filter P l = [].
Proof.
  induction 1 as [|x l Hx _ IH]; [reflexivity|].
  rewrite filter_cons_False by exact Hx. exact IH.
Qed.

(** ** Calibration *)

Lemma calibrate_pending (ft : FaceTracker) (p : point) :
  (length (calibration_points ft) < Config.CALIBRATION_FRAMES)%nat ->
  calibrate ft p = (set_calibration_points ft (calibration_points ft ++ [p]), false).
Proof.
  intros H. unfold calibrate. destruct (decide _); [reflexivity | contradiction].
Qed.

Lemma commit_succeeds (ft : FaceTracker) (p : point) :
  (Config.CALIBRATION_FRAMES <= length (calibration_points ft))%nat ->
  enough_good_points (calibration_points ft) ->
  calibrate ft p =
  (set_velocity
     (set_is_calibrated
        (set_reference_point ft
           (Some (mean_point (good_points (calibration_points ft))))) true)
     (0, 0), true).
Proof.
  intros Hfull Hgood. unfold calibrate.
  destruct (decide (_ < _)%nat); [lia|].
  destruct (decide _) as [|Hn]; [reflexivity|]. contradiction.
Qed.

Lemma commit_fails (ft : FaceTracker) (p : point) :
  (Config.CALIBRATION_FRAMES <= length (calibration_points ft))%nat ->
  ~ enough_good_points (calibration_points ft) ->
  calibrate ft p = (set_calibration_points ft [], false).
Proof.
  intros Hfull Hgood. unfold calibrate.
  destruct (decide (_ < _)%nat); [lia|].
  destruct (decide _) as [Hy|]; [|reflexivity]. contradiction.
Qed.

(** No point of a buffer of identical points passes the strict test against
    twice a zero deviation. *)
Lemma good_points_identical (n : nat) (p : point) :
  (0 < n)%nat -> good_points (replicate n p) = [].
Proof.
  intros Hn. unfold good_points. apply filter_none.
  apply Forall_forall. intros q _ [Hx _].
  rewrite map_replicate, std_replicate in Hx by exact Hn.
  pose proof (Rabs_pos (q.1 - mean (replicate n p.1))). lra.
Qed.

Lemma not_enough_of_identical (n : nat) (p : point) :
  (0 < n)%nat -> ~ enough_good_points (replicate n p).
Proof.
  intros Hn. unfold enough_good_points. rewrite good_points_identical by exact Hn.
  simpl. unfold Config.CALIBRATION_THRESHOLD. lra.
Qed.

(** While the buffer has room every point is appended. *)
Lemma feed_pending (n : nat) (ft : FaceTracker) (p : point) :
  (length (calibration_points ft) + n <= Config.CALIBRATION_FRAMES)%nat ->
  feed ft (replicate n p) =
  (set_calibration_points ft (calibration_points ft ++ replicate n p),
   replicate n false).
Proof.
  revert ft. induction n as [|n IH]; intros ft Hlen; simpl.
  - rewrite app_nil_r. destruct ft; reflexivity.
  - rewrite calibrate_pending by lia.
    rewrite IH by (simpl; rewrite length_app; simpl; lia).
    simpl. rewrite <- app_assoc. reflexivity.
Qed.

Lemma feed_app (ft : FaceTracker) (ps qs : list point) :
  feed ft (ps ++ qs) =
  let r1 := feed ft ps in
  let r2 := feed r1.1 qs in
  (r2.1, r1.2 ++ r2.2).
Proof.
  revert ft. induction ps as [|p ps IH]; intros ft; simpl.
  - destruct (feed ft qs); reflexivity.
  - destruct (calibrate ft p) as [ft1 b]. rewrite IH. simpl.
    destruct (feed ft1 ps) as [ft2 bs]. simpl.
    destruct (feed ft2 qs); reflexivity.
Qed.

(** C1, on the code.  Fed [CALIBRATION_FRAMES] copies of one point and then
    called once more to commit, [calibrate] never succeeds: the deviation of
    the buffer is 0, no point is strictly within twice it, and the commit
    empties the buffer and returns False, leaving the tracker uncalibrated
    and its reference point as it was. *)
Theorem calibrate_identical_points_fail (ft : FaceTracker) (p q : point) :
  calibration_points ft = [] ->
  let r := feed ft (replicate Config.CALIBRATION_FRAMES p ++ [q]) in
  r.2 = replicate (S Config.CALIBRATION_FRAMES) false
  /\ calibration_points r.1 = []
  /\ is_calibrated r.1 = is_calibrated ft
  /\ reference_point r.1 = reference_point ft.
Proof.
  intros Hempty. cbv zeta. rewrite feed_app. cbv zeta.
  rewrite feed_pending by (rewrite Hempty; simpl; lia).
  rewrite Hempty. cbn [fst snd app feed].
  rewrite commit_fails.
  - repeat split.
  - simpl. unfold Config.CALIBRATION_FRAMES. lia.
  - apply not_enough_of_identical. unfold Config.CALIBRATION_FRAMES. lia.
Qed.

Lemma calibrate_identical_points_fail_witness :
  let r := feed fresh_tracker (replicate Config.CALIBRATION_FRAMES (320, 240) ++ [(320, 240)]) in
  r.2 = replicate (S Config.CALIBRATION_FRAMES) false
  /\ calibration_points r.1 = []
  /\ is_calibrated r.1 = false
  /\ reference_point r.1 = None.
Proof.
  exact (calibrate_identical_points_fail fresh_tracker (320, 240) (320, 240) eq_refl).
Defined.

(** The steady buffer: mean 320 (240), variance 2/3 on each axis, and every
    point within twice the deviation. *)
Lemma steady_points_within :
  Forall (fun p : point =>
            Rabs (p.1 - mean (map fst steady_points)) < 2 * std (map fst steady_points)
            /\ Rabs (p.2 - mean (map snd steady_points)) < 2 * std (map snd steady_points))
    steady_points.
Proof.
  assert (Hmx : mean (map fst steady_points) = 320).
  { apply mean_eq; simpl; [lia | lra]. }
  assert (Hmy : mean (map snd steady_points) = 240).
  { apply mean_eq; simpl; [lia | lra]. }
  assert (Hvx : mean (map (fun y => Rabs (y - 320) ^ 2) (map fst steady_points)) = 2 / 3).
  { apply mean_eq; [simpl; lia|]. simpl. rewrite !abs_sq. lra. }
  assert (Hvy : mean (map (fun y => Rabs (y - 240) ^ 2) (map snd steady_points)) = 2 / 3).
  { apply mean_eq; [simpl; lia|]. simpl. rewrite !abs_sq. lra. }
  unfold steady_points at 1. simpl.
  repeat (apply Forall_cons; split;
          [split; [apply (within_two_std _ _ 320 (2 / 3) Hmx Hvx)
                  |apply (within_two_std _ _ 240 (2 / 3) Hmy Hvy)]; simpl; lra|]).
  apply Forall_nil. exact I.
Qed.

Lemma steady_points_good : good_points steady_points = steady_points.
Proof. unfold good_points. apply filter_all. exact steady_points_within. Qed.

(** No point of the steady buffer lies at twice the deviation. *)
Lemma steady_points_tie_free : tie_free steady_points.
Proof.
  unfold tie_free. eapply Forall_impl; [exact steady_points_within|].
  intros p [Hx Hy]. split; lra.
Qed.

Lemma steady_points_enough : enough_good_points steady_points.
Proof.
  unfold enough_good_points. rewrite steady_points_good. simpl.
  unfold Config.CALIBRATION_THRESHOLD. lra.
Qed.

(** C3, counterexample.  A commit that succeeds leaves the buffer full. *)
Lemma calibrate_success_keeps_buffer :
  length (calibration_points steady_tracker) = Config.CALIBRATION_FRAMES
  /\ enough_good_points (calibration_points steady_tracker)
  /\ (calibrate steady_tracker (320, 240)).2 = true
  /\ calibration_points (calibrate steady_tracker (320, 240)).1 = steady_points
  /\ steady_points <> [].
Proof.
  split; [reflexivity|]. split; [exact steady_points_enough|].
  rewrite commit_succeeds;
    [|simpl; unfold Config.CALIBRATION_FRAMES; lia | exact steady_points_enough].
  repeat split. discriminate.
Qed.

(** C3, as the code has it.  With the buffer full and none of its points
    exactly at twice the deviation from the mean, if the number of good
    points is at least [CALIBRATION_FRAMES * CALIBRATION_THRESHOLD] the commit
    sets the reference point to the mean of the good points, sets the
    calibrated flag, resets the velocity to zero and returns True, leaving
    the buffer as it is; otherwise it empties the buffer and returns False,
    changing nothing else.  The point passed to the committing call is not
    used.  Nothing is said of a buffer with a point exactly at twice the
    deviation, where the rounding of the code decides whether it counts. *)
Theorem calibrate_commit (ft : FaceTracker) (face_point : point) :
  (Config.CALIBRATION_FRAMES <= length (calibration_points ft))%nat ->
  tie_free (calibration_points ft) ->
  let good := good_points (calibration_points ft) in
  let r := calibrate ft face_point in
  (enough_good_points (calibration_points ft) ->
     r.2 = true
     /\ reference_point r.1 = Some (mean_point good)
     /\ velocity r.1 = (0, 0)
     /\ is_calibrated r.1 = true
     /\ calibration_points r.1 = calibration_points ft)
  /\ (~ enough_good_points (calibration_points ft) ->
      r = (set_calibration_points ft [], false)).
Proof.
  intros Hfull _. cbv zeta. split; intros Hgood.
  - rewrite commit_succeeds by assumption. repeat split.
  - apply commit_fails; assumption.
Qed.

Lemma calibrate_commit_witness :
  (calibrate steady_tracker (500, 500)).2 = true
  /\ reference_point (calibrate steady_tracker (500, 500)).1
     = Some (mean_point (good_points steady_points))
  /\ velocity (calibrate steady_tracker (500, 500)).1 = (0, 0)
  /\ is_calibrated (calibrate steady_tracker (500, 500)).1 = true
  /\ calibration_points (calibrate steady_tracker (500, 500)).1 = steady_points.
Proof.
  assert (Hfull : (Config.CALIBRATION_FRAMES
                   <= length (calibration_points steady_tracker))%nat)
    by (simpl; unfold Config.CALIBRATION_FRAMES; lia).
  destruct (calibrate_commit steady_tracker (500, 500) Hfull steady_points_tie_free)
    as [Hok _].
  exact (Hok steady_points_enough).
Defined.

(** ** Settings *)

Section SettingsProperties.

Variable float_of_str : string -> option R.

Lemma set_current_profile_same (ft : FaceTracker) :
  set_current_profile ft (current_profile ft) = ft.
Proof. destruct ft; reflexivity. Qed.

(** A rejected numeric value stops the assignments with an exception: the
    rejected field and those after it keep their values, the numeric fields
    before it hold the payload's value where the payload has one. *)
Lemma settings_stmts_rejected (data : gmap string PyVal) (p : UserProfile) :
  invalid_payload float_of_str data ->
  exists e p',
    settings_stmts float_of_str data p = (p', Some e)
    /\ name p' = name p
    /\ mouth_threshold p' = mouth_threshold p
    /\ region_bounds p' = region_bounds p
    /\ calibration_data p' = calibration_data p
    /\ kept_or_assigned float_of_str data "sensitivity" (sensitivity p) (sensitivity p')
    /\ kept_or_assigned float_of_str data "smoothing" (smoothing p) (smoothing p')
    /\ kept_or_assigned float_of_str data "blink_threshold"
         (blink_threshold p) (blink_threshold p')
    /\ (rejected float_of_str data "sensitivity" -> p' = p)
    /\ assigned float_of_str data "sensitivity" (sensitivity p')
    /\ (~ rejected float_of_str data "sensitivity" ->
        assigned float_of_str data "smoothing" (smoothing p'))
    /\ (~ rejected float_of_str data "sensitivity" ->
        ~ rejected float_of_str data "smoothing" ->
        assigned float_of_str data "blink_threshold" (blink_threshold p')).
Proof.
  intros (key & Hin & v & e & Hl & Hf).
  unfold settings_stmts, stmt_seq, assign_float, assign_region,
    kept_or_assigned, assigned, rejected.
  destruct (data !! "sensitivity"%string) as [v1|] eqn:L1;
    [destruct (py_float float_of_str v1) as [r1|e1] eqn:F1|];
    (try (exists e1, p; repeat split; auto; try congruence;
          try (intros Hn; exfalso; apply Hn; eauto); fail));
  (destruct (data !! "smoothing"%string) as [v2|] eqn:L2;
    [destruct (py_float float_of_str v2) as [r2|e2] eqn:F2|];
    (try (eexists _, _; repeat split; simpl;
          try (intros (? & ? & ? & ?)); eauto; try congruence;
          try (intros ? Hn; exfalso; apply Hn; eauto); fail));
  (destruct (data !! "blink_threshold"%string) as [v3|] eqn:L3;
    [destruct (py_float float_of_str v3) as [r3|e3] eqn:F3|];
    (try (eexists _, _; repeat split; simpl;
          try (intros (? & ? & ? & ?)); eauto; congruence));
  (destruct (data !! "mouth_threshold"%string) as [v4|] eqn:L4;
    [destruct (py_float float_of_str v4) as [r4|e4] eqn:F4|];
    (try (eexists _, _; repeat split; simpl;
          try (intros (? & ? & ? & ?)); eauto; congruence))))).
  all: exfalso; unfold numeric_keys in Hin;
    repeat (apply elem_of_cons in Hin as [->|Hin]; [congruence|]);
    apply elem_of_nil in Hin; exact Hin.
Qed.

(** C7, as the code has it.  A payload in which one of the four numeric
    settings holds a value [float] rejects makes the update fail with an
    error reply and saves nothing; nothing but the active profile changes,
    and in it the rejected field, [mouth_threshold], [region_bounds], the
    name and the calibration data keep their values.  The update is not
    atomic: a numeric field converted before the first rejected one holds
    the payload's value.  When the rejected field is the first one,
    [sensitivity], the state is unchanged. *)
Theorem settings_update_rejected (ft : FaceTracker) (data : gmap string PyVal) :
  invalid_payload float_of_str data ->
  exists e p',
    handle_settings_update float_of_str ft data
    = (set_current_profile ft p', [], StatusError e)
    /\ name p' = name (current_profile ft)
    /\ mouth_threshold p' = mouth_threshold (current_profile ft)
    /\ region_bounds p' = region_bounds (current_profile ft)
    /\ calibration_data p' = calibration_data (current_profile ft)
    /\ kept_or_assigned float_of_str data "sensitivity"
         (sensitivity (current_profile ft)) (sensitivity p')
    /\ kept_or_assigned float_of_str data "smoothing"
         (smoothing (current_profile ft)) (smoothing p')
    /\ kept_or_assigned float_of_str data "blink_threshold"
         (blink_threshold (current_profile ft)) (blink_threshold p')
    /\ (rejected float_of_str data "sensitivity" ->
        handle_settings_update float_of_str ft data = (ft, [], StatusError e))
    /\ assigned float_of_str data "sensitivity" (sensitivity p')
    /\ (~ rejected float_of_str data "sensitivity" ->
        assigned float_of_str data "smoothing" (smoothing p'))
    /\ (~ rejected float_of_str data "sensitivity" ->
        ~ rejected float_of_str data "smoothing" ->
        assigned float_of_str data "blink_threshold" (blink_threshold p')).
Proof.
  intros Hbad.
  destruct (settings_stmts_rejected data (current_profile ft) Hbad)
    as (e & p' & Hs & Hn & Hm & Hr & Hc & H1 & H2 & H3 & Hfirst & A1 & A2 & A3).
  exists e, p'.
  assert (Hrun : handle_settings_update float_of_str ft data
                 = (set_current_profile ft p', [], StatusError e)).
  { unfold handle_settings_update, update_settings. rewrite Hs. reflexivity. }
  repeat (split; [assumption|]).
  split; [|repeat (split; [assumption|]); assumption].
  intros Hrej. rewrite Hrun, (Hfirst Hrej), set_current_profile_same. reflexivity.
Qed.

End SettingsProperties.

Lemma half_valid_payload_invalid (float_of_str : string -> option R) :
  invalid_payload float_of_str half_valid_payload.
Proof.
  exists "smoothing"%string. split.
  - unfold numeric_keys. apply elem_of_cons. right. apply elem_of_cons. left. reflexivity.
  - exists PyNone, TypeError. split; reflexivity.
Qed.

(** The update stops at the null smoothing, after the sensitivity is
    written. *)
Lemma half_valid_update (float_of_str : string -> option R) :
  handle_settings_update float_of_str fresh_tracker half_valid_payload
  = (set_current_profile fresh_tracker
       (set_sensitivity (UserProfile_init "default") 2),
     [], StatusError TypeError).
Proof.
  unfold handle_settings_update, update_settings, settings_stmts, stmt_seq, assign_float.
  change (half_valid_payload !! "sensitivity"%string) with (Some (PyNum 2)).
  change (half_valid_payload !! "smoothing"%string) with (Some PyNone).
  reflexivity.
Qed.

(** C7, counterexample.  The payload with sensitivity 2 and a null smoothing
    is rejected, and the sensitivity of the active profile has changed from
    1 to 2. *)
Lemma settings_update_not_atomic :
  invalid_payload no_str_float half_valid_payload
  /\ (handle_settings_update no_str_float fresh_tracker half_valid_payload).2
     = StatusError TypeError
  /\ sensitivity (current_profile fresh_tracker) = 1
  /\ sensitivity (current_profile
       (handle_settings_update no_str_float fresh_tracker half_valid_payload).1.1) = 2
  /\ current_profile
       (handle_settings_update no_str_float fresh_tracker half_valid_payload).1.1
     <> current_profile fresh_tracker.
Proof.
  rewrite half_valid_update. split; [apply half_valid_payload_invalid|].
  repeat split. simpl. intros H.
  apply (f_equal sensitivity) in H. simpl in H. lra.
Qed.

Lemma settings_update_rejected_witness :
  exists e p',
    handle_settings_update no_str_float fresh_tracker half_valid_payload
    = (set_current_profile fresh_tracker p', [], StatusError e)
    /\ mouth_threshold p' = Config.MOUTH_SENSITIVITY
    /\ region_bounds p' = PyNone.
Proof.
  destruct (settings_update_rejected no_str_float fresh_tracker half_valid_payload
              (half_valid_payload_invalid no_str_float))
    as (e & p' & Hrun & _ & Hm & Hr & _).
  exists e, p'. repeat split; assumption.
Defined.

(** * Further properties of the control loop *)

(** ** The mouth detector *)










(** ** Traces of the detectors *)

Lemma spaced_blink_run (threshold : R) (frames : list (landmarks * R)) (g : GestureDetector) :
  spaced Config.BLINK_COOLDOWN (last_blink_time g)
    (event_times frames (run_blink g threshold frames).2).
Proof.
  revert g. induction frames as [|[lm t] fs IH]; intros g; simpl; [exact I|].
  destruct (detect_blink g lm threshold t) as [g1 b] eqn:E.
  specialize (IH g1).
  destruct (run_blink g1 threshold fs) as [g2 bs]. simpl in *.
  destruct (detect_blink_cases _ _ _ _ _ _ E)
    as [(_ & -> & ->) | [(_ & -> & _ & Hcd & ->) | (_ & -> & ->)]]; simpl in *.
  - exact IH.
  - split; assumption.
  - exact IH.
Qed.

Lemma spaced_mouth_run (threshold : R) (frames : list (landmarks * R)) (g : GestureDetector) :
  spaced Config.MOUTH_COOLDOWN (last_mouth_time g)
    (event_times frames (run_mouth g threshold frames).2).
Proof.
  revert g. induction frames as [|[lm t] fs IH]; intros g; simpl; [exact I|].
  destruct (detect_mouth_open g lm threshold t) as [g1 b] eqn:E.
  specialize (IH g1).
  destruct (run_mouth g1 threshold fs) as [g2 bs]. simpl in *.
  destruct (detect_mouth_open_cases _ _ _ _ _ _ E)
    as [(_ & -> & ->) | [(_ & -> & _ & Hcd & ->) | (_ & -> & ->)]]; simpl in *.
  - exact IH.
  - split; assumption.
  - exact IH.
Qed.

(** X2. Over any sequence of frames, whatever the ratios and the clock
    readings, two consecutive blink events are at least [BLINK_COOLDOWN]
    apart, the first one at least that long after the trigger time the
    detector started with; the same holds for mouth events and
    [MOUTH_COOLDOWN]. *)
Theorem gesture_events_spaced (g : GestureDetector) (threshold : R)
    (frames : list (landmarks * R)) :
  spaced Config.BLINK_COOLDOWN (last_blink_time g)
    (event_times frames (run_blink g threshold frames).2)
  /\ spaced Config.MOUTH_COOLDOWN (last_mouth_time g)
       (event_times frames (run_mouth g threshold frames).2).
Proof. split; [apply spaced_blink_run | apply spaced_mouth_run]. Qed.






(** ** The aspect ratios *)

Lemma aspect_ratio_nonneg (a1 a2 b1 b2 h1 h2 : point) :
  0 <= aspect_ratio a1 a2 b1 b2 h1 h2.
Proof.
  rewrite aspect_ratio_eq.
  destruct (decide (norm (vsub h1 h2) > 0)) as [Hh|_]; [|lra].
  pose proof (norm_nonneg (vsub a1 a2)). pose proof (norm_nonneg (vsub b1 b2)).
  apply Rmult_le_pos; [lra|]. left. apply Rinv_0_lt_compat. lra.
Qed.

Lemma collect_parts_length (lm : landmarks) (start stop : nat) (pts : list point) :
  collect_parts lm start stop = Some pts -> length pts = (stop - start)%nat.
Proof.
  unfold collect_parts. intros Hm. apply mapM_Some_1, Forall2_length in Hm.
  rewrite length_seq in Hm. congruence.
Qed.

(** A landmark set too short for the last index read makes [part] raise. *)
Lemma collect_parts_short (lm : landmarks) (start stop : nat) :
  (start < stop)%nat -> (length lm < stop)%nat -> collect_parts lm start stop = None.
Proof.
  intros Hs Hl. destruct (collect_parts lm start stop) as [pts|] eqn:E; [|reflexivity].
  exfalso. pose proof (collect_parts_length _ _ _ _ E) as Hlen.
  destruct (lookup_lt_is_Some_2 pts (stop - start - 1)) as [p Hp]; [lia|].
  apply (collect_parts_lookup _ _ _ _ _ _ E) in Hp.
  apply lookup_lt_Some in Hp. lia.
Qed.

Lemma eye_ratio_nonneg (lm : landmarks) (start end_ : nat) :
  0 <= get_eye_aspect_ratio lm start end_.
Proof.
  rewrite get_eye_aspect_ratio_eq.
  destruct (collect_parts lm start (end_ + 1)) as [pts|]; simpl; [|lra].
  destruct (pts !! 1%nat); simpl; [|lra]. destruct (pts !! 5%nat); simpl; [|lra].
  destruct (pts !! 2%nat); simpl; [|lra]. destruct (pts !! 4%nat); simpl; [|lra].
  destruct (pts !! 0%nat); simpl; [|lra]. destruct (pts !! 3%nat); simpl; [|lra].
  apply aspect_ratio_nonneg.
Qed.

Lemma mouth_ratio_nonneg (lm : landmarks) : 0 <= get_mouth_aspect_ratio lm.
Proof.
  rewrite get_mouth_aspect_ratio_eq.
  destruct (collect_parts lm 60 68) as [pts|]; simpl; [|lra].
  destruct (pts !! 2%nat); simpl; [|lra]. destruct (pts !! 6%nat); simpl; [|lra].
  destruct (pts !! 3%nat); simpl; [|lra]. destruct (pts !! 5%nat); simpl; [|lra].
  destruct (pts !! 0%nat); simpl; [|lra]. destruct (pts !! 4%nat); simpl; [|lra].
  apply aspect_ratio_nonneg.
Qed.

(** What [get_mouth_aspect_ratio] returns is a number. *)
Lemma mouth_ratio_finite (lm : landmarks) :
  get_mouth_aspect_ratio_np lm = Finite (get_mouth_aspect_ratio lm).
Proof.
  unfold get_mouth_aspect_ratio.
  unfold get_mouth_aspect_ratio_np, mouth_aspect_ratio_body.
  destruct (collect_parts lm 60 68) as [pts|]; [|reflexivity]. simpl.
  destruct (pts !! 2%nat); [|reflexivity]; simpl.
  destruct (pts !! 6%nat); [|reflexivity]; simpl.
  destruct (pts !! 3%nat); [|reflexivity]; simpl.
  destruct (pts !! 5%nat); [|reflexivity]; simpl.
  destruct (pts !! 0%nat); [|reflexivity]; simpl.
  destruct (pts !! 4%nat); [|reflexivity]; simpl.
  rewrite aspect_ratio_finite. reflexivity.
Qed.

(** The [try] body of [get_mouth_aspect_ratio] returns on 68 landmarks. *)
Lemma mouth_body_returns (lm : landmarks) :
  (68 <= length lm)%nat ->
  exists m0 m2 m3 m4 m5 m6,
    lm !! 60%nat = Some m0 /\ lm !! 64%nat = Some m4
    /\ mouth_aspect_ratio_body lm = Some (aspect_ratio_np m2 m6 m3 m5 m0 m4).
Proof.
  intros Hl.
  destruct (collect_parts_total lm 60 68 Hl) as (pts & E & Hlen).
  destruct (lookup_lt_is_Some_2 pts 0) as [m0 H0]; [lia|].
  destruct (lookup_lt_is_Some_2 pts 2) as [m2 H2]; [lia|].
  destruct (lookup_lt_is_Some_2 pts 3) as [m3 H3]; [lia|].
  destruct (lookup_lt_is_Some_2 pts 4) as [m4 H4]; [lia|].
  destruct (lookup_lt_is_Some_2 pts 5) as [m5 H5]; [lia|].
  destruct (lookup_lt_is_Some_2 pts 6) as [m6 H6]; [lia|].
  exists m0, m2, m3, m4, m5, m6. split; [|split].
  - exact (collect_parts_lookup _ _ _ _ _ _ E H0).
  - exact (collect_parts_lookup _ _ _ _ _ _ E H4).
  - unfold mouth_aspect_ratio_body. rewrite E. simpl.
    rewrite H2. simpl. rewrite H6. simpl. rewrite H3. simpl.
    rewrite H5. simpl. rewrite H0. simpl. rewrite H4. reflexivity.
Qed.

(** X5. [get_mouth_aspect_ratio] never raises, and what it returns is a
    number (not [inf] or [nan]) that is not negative.  With fewer than 68
    landmarks reading a mouth landmark raises inside the [try], and the
    [except] branch returns 0.  When the mouth has no width (the distance
    between the mouth points 0 and 4 is zero) the division by that width
    would give no number; the guard answers in its place: the [try] body
    itself returns 0 on 68 landmarks, and the function returns 0. *)
Theorem mouth_aspect_ratio_guarded (lm : landmarks) :
  (exists r, get_mouth_aspect_ratio_np lm = Finite r /\ 0 <= r)
  /\ 0 <= get_mouth_aspect_ratio lm
  /\ ((length lm < 68)%nat ->
      mouth_aspect_ratio_body lm = None /\ get_mouth_aspect_ratio lm = 0)
  /\ (forall m0 m4, lm !! 60%nat = Some m0 -> lm !! 64%nat = Some m4 ->
        norm (vsub m0 m4) = 0 ->
        (forall v, np_divide v (2 * norm (vsub m0 m4)) = NotFinite)
        /\ ((68 <= length lm)%nat -> mouth_aspect_ratio_body lm = Some (Finite 0))
        /\ get_mouth_aspect_ratio_np lm = Finite 0
        /\ get_mouth_aspect_ratio lm = 0).
Proof.
  split; [|split; [apply mouth_ratio_nonneg|split]].
  - exists (get_mouth_aspect_ratio lm).
    split; [apply mouth_ratio_finite | apply mouth_ratio_nonneg].
  - intros Hl.
    assert (E : mouth_aspect_ratio_body lm = None).
    { unfold mouth_aspect_ratio_body. rewrite collect_parts_short by lia. reflexivity. }
    split; [exact E|].
    unfold get_mouth_aspect_ratio, get_mouth_aspect_ratio_np. rewrite E. reflexivity.
  - intros m0 m4 H0 H4 Hh.
    assert (Hflat : get_mouth_aspect_ratio lm = 0).
    { apply mouth_ratio_flat. intros q0 q4 Hq0 Hq4. congruence. }
    split; [intros v; apply np_divide_zero_width, Hh|].
    split; [|split; [|exact Hflat]].
    + intros Hl.
      destruct (mouth_body_returns lm Hl) as (q0 & q2 & q3 & q4 & q5 & q6 & L0 & L4 & E).
      rewrite E. f_equal. apply aspect_ratio_np_flat. congruence.
    + rewrite mouth_ratio_finite, Hflat. reflexivity.
Qed.

(** X6. [get_eye_aspect_ratio] never returns a negative ratio, and returns 0
    whenever it cannot read its six points: when the landmark set ends
    before index [end], and when the range [start..end] holds fewer than
    six landmarks. *)
Theorem eye_aspect_ratio_unreadable (lm : landmarks) (start end_ : nat) :
  0 <= get_eye_aspect_ratio lm start end_
  /\ ((start <= end_)%nat -> (length lm <= end_)%nat ->
      get_eye_aspect_ratio lm start end_ = 0)
  /\ ((end_ < start + 5)%nat -> get_eye_aspect_ratio lm start end_ = 0).
Proof.
  split; [apply eye_ratio_nonneg|]. split.
  - intros Hs Hl. rewrite get_eye_aspect_ratio_eq.
    rewrite collect_parts_short by lia. reflexivity.
  - intros Hs. rewrite get_eye_aspect_ratio_eq.
    destruct (collect_parts lm start (end_ + 1)) as [pts|] eqn:E; [|reflexivity].
    simpl. pose proof (collect_parts_length _ _ _ _ E) as Hlen.
    destruct (pts !! 1%nat); simpl; [|reflexivity].
    rewrite (lookup_ge_None_2 pts 5) by lia. reflexivity.
Qed.










(** ** Clicks *)

Lemma handle_click_cases (ft : FaceTracker) (b : button) (t : R) :
  (t - last_click_time ft >= Config.CLICK_COOLDOWN
   /\ handle_click ft b t = (set_last_click_time ft t, [Click b]))
  \/ (t - last_click_time ft < Config.CLICK_COOLDOWN
      /\ handle_click ft b t = (ft, [])).
Proof.
  unfold handle_click. destruct (decide _) as [H|H]; [left | right]; split; auto.
  apply Rnot_ge_lt, H.
Qed.

(** Membership in an explicit effect list, case by case. *)
Ltac effect_cases :=
  repeat match goal with
         | H : _ ∈ [] |- _ => apply not_elem_of_nil in H; contradiction
         | H : _ ∈ _ :: _ |- _ => apply elem_of_cons in H as [H|H]
         end.

(** X8. The clicks of one frame.  [process_frame]'s gesture step issues a
    right click only for a blink event and a left click only for a mouth
    event, each only when [CLICK_COOLDOWN] has passed since the last click;
    when the two click times of the frame are less than [CLICK_COOLDOWN]
    apart, as within one frame they are, it issues at most one click, the
    right click winning over the left. *)
Theorem one_click_per_frame (ft : FaceTracker) (lm : landmarks) (env : FrameEnv) :
  t_left_click env - t_right_click env < Config.CLICK_COOLDOWN ->
  let effs := (gesture_step ft lm env).2 in
  (length effs <= 1)%nat
  /\ (forall e, e ∈ effs -> e = Click RightButton \/ e = Click LeftButton)
  /\ (Click RightButton ∈ effs ->
      (detect_blink (gesture_detector ft) lm
         (blink_threshold (current_profile ft)) (t_blink env)).2 = true
      /\ t_right_click env - last_click_time ft >= Config.CLICK_COOLDOWN)
  /\ (Click LeftButton ∈ effs ->
      (Click RightButton ∉ effs)
      /\ (detect_mouth_open (gesture_detector ft) lm
            (mouth_threshold (current_profile ft)) (t_mouth env)).2 = true
      /\ t_left_click env - last_click_time ft >= Config.CLICK_COOLDOWN).
Proof.
  intros Hclose. cbv zeta. unfold gesture_step.
  destruct (detect_blink _ _ _ _) as [g1 blink] eqn:Eb. simpl snd.
  assert (Em : forall ft0 : FaceTracker,
             gesture_detector ft0 = g1 -> current_profile ft0 = current_profile ft ->
             detect_mouth_open (gesture_detector ft0) lm
               (mouth_threshold (current_profile ft0)) (t_mouth env)
             = (set_eye_ar_counter
                  (set_last_blink_time
                     (detect_mouth_open (gesture_detector ft) lm
                        (mouth_threshold (current_profile ft)) (t_mouth env)).1
                     (last_blink_time g1)) (eye_ar_counter g1),
                (detect_mouth_open (gesture_detector ft) lm
                   (mouth_threshold (current_profile ft)) (t_mouth env)).2)).
  { intros ft0 -> ->.
    destruct (detect_blink_cases _ _ _ _ _ _ Eb)
      as [(_ & _ & ->) | [(_ & _ & _ & _ & ->) | (_ & _ & ->)]];
      unfold detect_mouth_open; simpl;
      repeat (destruct (decide _)); destruct (gesture_detector ft); reflexivity. }
  destruct blink;
    [destruct (handle_click_cases (set_gesture_detector ft g1) RightButton
                 (t_right_click env)) as [[Hc1 ->] | [Hc1 ->]]|];
    rewrite Em by reflexivity;
    destruct (detect_mouth_open (gesture_detector ft) _ _ _) as [g2 mouth];
    cbn [fst snd]; destruct mouth;
    try match goal with
        | |- context [handle_click ?f LeftButton ?t] =>
            destruct (handle_click_cases f LeftButton t) as [[Hc2 ->] | [Hc2 ->]]
        end;
    simpl in *; try lra;
    (split; [lia|]);
    (split; [intros e He; effect_cases; subst; auto|]);
    (split; intros He; effect_cases; try discriminate);
    repeat split; auto;
    intros He'; effect_cases; discriminate.
Qed.

Lemma one_click_per_frame_witness :
  let ft := set_gesture_detector fresh_tracker
              (mkGestureDetector 2 3 0 0 false false false) in
  let env := mkFrameEnv 10 10 10 10 10 (500, 500)%Z in
  (length (gesture_step ft open_face env).2 <= 1)%nat.
Proof.
  intros ft env.
  assert (Hclose : t_left_click env - t_right_click env < Config.CLICK_COOLDOWN)
    by (simpl; unfold Config.CLICK_COOLDOWN; lra).
  exact (proj1 (one_click_per_frame ft open_face env Hclose)).
Defined.

(** ** What a frame keeps *)

Lemma calibrate_keeps (ft ft' : FaceTracker) (p : point) (b : bool) :
  calibrate ft p = (ft', b) ->
  is_tracking ft' = is_tracking ft /\ is_paused ft' = is_paused ft
  /\ screen_w ft' = screen_w ft /\ screen_h ft' = screen_h ft
  /\ current_profile ft' = current_profile ft
  /\ gesture_detector ft' = gesture_detector ft
  /\ last_click_time ft' = last_click_time ft.
Proof.
  unfold calibrate. destruct (decide _); [|destruct (decide _)];
    intros [= <- <-]; repeat split.
Qed.

Lemma update_position_keeps (ft ft' : FaceTracker) (p : point) (t : R) (cur : Z * Z)
    (r : option (Z * Z)) :
  update_position ft p t cur = (ft', r) ->
  is_tracking ft' = is_tracking ft
  /\ is_calibrated ft' = is_calibrated ft
  /\ calibration_points ft' = calibration_points ft
  /\ reference_point ft' = reference_point ft
  /\ gesture_detector ft' = gesture_detector ft
  /\ last_click_time ft' = last_click_time ft.
Proof.
  unfold update_position.
  destruct (negb (is_calibrated ft) || negb (is_tracking ft)).
  { intros [= <- <-]. repeat split. }
  simpl. destruct (reference_point ft) eqn:E; intros [= <- <-]; simpl; auto 10.
Qed.

Lemma move_step_keeps (ft ft' : FaceTracker) (nose : point) (env : FrameEnv)
    (moves : list effect) (ok : bool) :
  move_step ft nose env = (ft', moves, ok) ->
  update_position ft nose (t_update env) (cursor env)
  = (ft', (update_position ft nose (t_update env) (cursor env)).2).
Proof.
  unfold move_step.
  destruct (update_position ft nose (t_update env) (cursor env)) as [ft0 [[x y]|]].
  - destruct (negb (is_paused ft0)); [|intros [= <- <- <-]; reflexivity].
    destruct (truthy _); [|intros [= <- <- <-]; reflexivity].
    destruct (unpack_region _) as [[[[x1 y1] x2] y2]|]; intros [= <- <- <-]; reflexivity.
  - intros [= <- <- <-]. reflexivity.
Qed.

Lemma handle_click_keeps (ft : FaceTracker) (b : button) (t : R) :
  let ft' := (handle_click ft b t).1 in
  set_last_click_time ft' (last_click_time ft) = ft.
Proof.
  cbv zeta. destruct (handle_click_cases ft b t) as [[_ ->] | [_ ->]];
    destruct ft; reflexivity.
Qed.

(** The gesture step writes the detector and the click time only. *)
Lemma gesture_step_keeps (ft : FaceTracker) (lm : landmarks) (env : FrameEnv) :
  let ft' := (gesture_step ft lm env).1 in
  set_last_click_time (set_gesture_detector ft' (gesture_detector ft))
    (last_click_time ft) = ft.
Proof.
  cbv zeta. unfold gesture_step.
  destruct (detect_blink _ _ _ _) as [g1 blink].
  destruct blink;
    [destruct (handle_click_cases (set_gesture_detector ft g1) RightButton
                 (t_right_click env)) as [[_ ->] | [_ ->]]|];
    destruct (detect_mouth_open _ _ _ _) as [g2 mouth]; destruct mouth;
    try match goal with
        | |- context [handle_click ?f LeftButton ?t] =>
            destruct (handle_click_cases f LeftButton t) as [[_ ->] | [_ ->]]
        end;
    destruct ft; reflexivity.
Qed.

(** X9. No frame changes the configuration: after [process_frame], whatever
    the frame holds, the tracking and pause switches, the screen size and
    every setting of the active profile (name, sensitivity, smoothing, both
    thresholds, region bounds) are as before; of the profile only
    [calibration_data] can change. *)
Theorem process_frame_keeps_configuration (ft : FaceTracker)
    (faces : option landmarks) (env : FrameEnv) :
  same_configuration ft (process_frame ft faces env).1.1.
Proof.
  unfold same_configuration, process_frame.
  destruct (negb (is_tracking ft)); [repeat split|].
  destruct (is_paused ft) eqn:Hp; [simpl; rewrite Hp; repeat split|].
  destruct faces as [lm|]; [|simpl; rewrite Hp; repeat split].
  destruct (lm !! 30%nat) as [nose|]; [|simpl; rewrite Hp; repeat split].
  destruct (negb (is_calibrated ft)).
  - destruct (calibrate ft nose) as [ft1 ok] eqn:Ec.
    destruct (calibrate_keeps _ _ _ _ Ec) as (H1 & H2 & H3 & H4 & H5 & _).
    destruct ok.
    + unfold save. destruct (calibration_data _); simpl;
        rewrite H1, H2, H3, H4, H5; repeat split; exact Hp.
    + simpl. rewrite H1, H2, H3, H4, H5. repeat split; exact Hp.
  - destruct (move_step ft nose env) as [[ft1 moves] ok] eqn:Em.
    pose proof (move_step_keeps _ _ _ _ _ _ Em) as Eu.
    destruct (update_position_frame _ _ _ _ _ _ Eu) as (P1 & P2 & P3 & P4).
    destruct (update_position_keeps _ _ _ _ _ _ Eu) as (K1 & _).
    destruct ok.
    + pose proof (gesture_step_keeps ft1 lm env) as Hg. cbv zeta in Hg.
      destruct (gesture_step ft1 lm env) as [ft2 clicks]. simpl in Hg. simpl.
      assert (G1 : is_tracking ft2 = is_tracking ft1) by (rewrite <- Hg; reflexivity).
      assert (G2 : is_paused ft2 = is_paused ft1) by (rewrite <- Hg; reflexivity).
      assert (G3 : screen_w ft2 = screen_w ft1) by (rewrite <- Hg; reflexivity).
      assert (G4 : screen_h ft2 = screen_h ft1) by (rewrite <- Hg; reflexivity).
      assert (G5 : current_profile ft2 = current_profile ft1)
        by (rewrite <- Hg; reflexivity).
      rewrite G1, G2, G3, G4, G5, K1, P1, P2, P3, P4. repeat split; exact Hp.
    + simpl. rewrite K1, P1, P2, P3, P4. repeat split; exact Hp.
Qed.

(** ** The sound states *)

Lemma tracker_ok_fields (ft ft' : FaceTracker) :
  is_calibrated ft' = is_calibrated ft ->
  reference_point ft' = reference_point ft ->
  calibration_points ft' = calibration_points ft ->
  tracker_ok ft -> tracker_ok ft'.
Proof. unfold tracker_ok. intros -> -> ->. auto. Qed.

Lemma tracker_ok_calibrate (ft : FaceTracker) (p : point) :
  tracker_ok ft -> tracker_ok (calibrate ft p).1.
Proof.
  intros [Href Hlen]. unfold calibrate, tracker_ok.
  destruct (decide _) as [Hlt|_]; [|destruct (decide _)]; simpl.
  - split; [exact Href|]. rewrite length_app. simpl. lia.
  - split; [eauto | exact Hlen].
  - split; [exact Href | lia].
Qed.

Lemma tracker_ok_update_position (ft : FaceTracker) (p : point) (t : R) (cur : Z * Z) :
  tracker_ok ft -> tracker_ok (update_position ft p t cur).1.
Proof.
  destruct (update_position ft p t cur) as [ft' r] eqn:E.
  destruct (update_position_keeps _ _ _ _ _ _ E) as (_ & H1 & H2 & H3 & _).
  apply tracker_ok_fields; assumption.
Qed.

Lemma tracker_ok_settings (float_of_str : string -> option R) (ft : FaceTracker)
    (data : gmap string PyVal) :
  tracker_ok ft -> tracker_ok (handle_settings_update float_of_str ft data).1.1.
Proof.
  unfold handle_settings_update, update_settings.
  destruct (settings_stmts float_of_str data (current_profile ft)) as [p [e|]];
    [|unfold save; destruct (calibration_data p)];
    apply tracker_ok_fields; reflexivity.
Qed.

Lemma tracker_ok_process_frame (ft : FaceTracker) (faces : option landmarks)
    (env : FrameEnv) :
  tracker_ok ft -> tracker_ok (process_frame ft faces env).1.1.
Proof.
  intros Hok. unfold process_frame.
  destruct (negb (is_tracking ft)); [exact Hok|].
  destruct (is_paused ft); [exact Hok|].
  destruct faces as [lm|]; [|exact Hok].
  destruct (lm !! 30%nat) as [nose|]; [|exact Hok].
  destruct (negb (is_calibrated ft)).
  - pose proof (tracker_ok_calibrate ft nose Hok) as Hc.
    destruct (calibrate ft nose) as [ft1 ok]. simpl in Hc.
    destruct ok; [|exact Hc].
    unfold save. destruct (calibration_data _); simpl;
      revert Hc; apply tracker_ok_fields; reflexivity.
  - destruct (move_step ft nose env) as [[ft1 moves] ok] eqn:Em.
    pose proof (move_step_keeps _ _ _ _ _ _ Em) as Eu.
    pose proof (tracker_ok_update_position ft nose (t_update env) (cursor env) Hok) as Hu.
    rewrite Eu in Hu. simpl in Hu.
    destruct ok; [|exact Hu].
    pose proof (gesture_step_keeps ft1 lm env) as Hg. cbv zeta in Hg.
    destruct (gesture_step ft1 lm env) as [ft2 clicks]. simpl in Hg. simpl.
    revert Hu. apply tracker_ok_fields; rewrite <- Hg; reflexivity.
Qed.

(** X10. The tracker keeps its state sound.  When a calibrated tracker has a
    reference point and the buffer holds at most [CALIBRATION_FRAMES] points,
    the same is true after [calibrate], [update_position],
    [toggle_tracking], [toggle_pause], a settings update and
    [process_frame]; in such a state [update_position] never meets a missing
    reference: calibrated and tracking, it returns a target. *)
Theorem tracker_ok_preserved (float_of_str : string -> option R) (ft : FaceTracker)
    (p : point) (t : R) (cur : Z * Z) (faces : option landmarks) (env : FrameEnv)
    (data : gmap string PyVal) :
  tracker_ok ft ->
  tracker_ok (calibrate ft p).1
  /\ tracker_ok (update_position ft p t cur).1
  /\ tracker_ok (toggle_tracking ft).1
  /\ tracker_ok (toggle_pause ft).1
  /\ tracker_ok (handle_settings_update float_of_str ft data).1.1
  /\ tracker_ok (process_frame ft faces env).1.1
  /\ (is_calibrated ft = true -> is_tracking ft = true ->
      is_Some (update_position ft p t cur).2).
Proof.
  intros Hok.
  split; [apply tracker_ok_calibrate, Hok|].
  split; [apply tracker_ok_update_position, Hok|].
  split.
  { destruct Hok as [Href Hlen]. unfold toggle_tracking, tracker_ok.
    destruct (is_tracking ft); simpl; split; auto; try discriminate; lia. }
  split; [revert Hok; apply tracker_ok_fields; reflexivity|].
  split; [apply tracker_ok_settings, Hok|].
  split; [apply tracker_ok_process_frame, Hok|].
  intros Hc Ht. destruct Hok as [Href _].
  destruct (Href Hc) as [ref Hr].
  unfold update_position. rewrite Hc, Ht. simpl. rewrite Hr. simpl. eauto.
Qed.

Lemma tracker_ok_preserved_witness :
  tracker_ok fresh_tracker
  /\ tracker_ok (process_frame fresh_tracker (Some flat_face)
                   (mkFrameEnv 1 1 1 1 1 (500, 500)%Z)).1.1.
Proof.
  assert (Hinit : tracker_ok fresh_tracker).
  { split; simpl; [discriminate | lia]. }
  split; [exact Hinit|].
  destruct (tracker_ok_preserved no_str_float fresh_tracker (0, 0) 0 (0, 0)%Z
              (Some flat_face) (mkFrameEnv 1 1 1 1 1 (500, 500)%Z) ∅ Hinit)
    as (_ & _ & _ & _ & _ & H & _).
  exact H.
Defined.

(** ** More on calibration *)

(** X11. While the buffer has room, [calibrate] only collects: fed any points
    that still fit, it returns False for each and appends them to the buffer
    in the order they came, changing nothing else.  From an empty buffer the
    first [CALIBRATION_FRAMES] calls can therefore never commit. *)
Theorem calibrate_collects (ft : FaceTracker) (pts : list point) :
  (length (calibration_points ft) + length pts <= Config.CALIBRATION_FRAMES)%nat ->
  feed ft pts =
  (set_calibration_points ft (calibration_points ft ++ pts),
   replicate (length pts) false).
Proof.
  revert ft. induction pts as [|p pts IH]; intros ft Hlen; simpl.
  - rewrite app_nil_r. destruct ft; reflexivity.
  - simpl in Hlen. rewrite calibrate_pending by lia.
    rewrite IH by (simpl; rewrite length_app; simpl; lia).
    simpl. rewrite <- app_assoc. reflexivity.
Qed.

Lemma calibrate_collects_witness :
  feed fresh_tracker steady_points
  = (set_calibration_points fresh_tracker steady_points, replicate 15 false).
Proof.
  apply (calibrate_collects fresh_tracker steady_points).
  simpl. unfold Config.CALIBRATION_FRAMES. lia.
Defined.

Lemma sum_bounds (a b : R) (xs : list R) :
  Forall (fun x => a <= x <= b) xs ->
  a * INR (length xs) <= sum xs <= b * INR (length xs).
Proof.
  induction 1 as [|x xs Hx _ IH].
  - simpl. lra.
  - change (sum (x :: xs)) with (x + sum xs).
    change (length (x :: xs)) with (S (length xs)). rewrite S_INR. lra.
Qed.

Lemma mean_bounds (a b : R) (xs : list R) :
  (0 < length xs)%nat -> Forall (fun x => a <= x <= b) xs -> a <= mean xs <= b.
Proof.
  intros Hn Hxs. pose proof (sum_bounds a b xs Hxs) as [Hlo Hhi].
  assert (Hpos : 0 < INR (length xs)) by (apply lt_0_INR; lia).
  unfold mean. split.
  - apply Rmult_le_reg_r with (INR (length xs)); [exact Hpos|].
    replace (sum xs / INR (length xs) * INR (length xs)) with (sum xs) by (field; lra).
    exact Hlo.
  - apply Rmult_le_reg_r with (INR (length xs)); [exact Hpos|].
    replace (sum xs / INR (length xs) * INR (length xs)) with (sum xs) by (field; lra).
    exact Hhi.
Qed.

Lemma good_points_sublist (points : list point) (P : point -> Prop) :
  Forall P points -> Forall P (good_points points).
Proof.
  intros H. unfold good_points. apply Forall_forall. intros q Hq.
  apply list_elem_of_filter in Hq as [_ Hq].
  rewrite Forall_forall in H. apply H, Hq.
Qed.

Lemma enough_good_points_nonempty (points : list point) :
  enough_good_points points -> (0 < length (good_points points))%nat.
Proof.
  unfold enough_good_points, Config.CALIBRATION_THRESHOLD. intros H.
  destruct (good_points points); simpl in *; [lra | lia].
Qed.

(** X12. A committed reference point lies among the points it was computed
    from: when every buffered point has its column within [[xlo, xhi]] and
    its row within [[ylo, yhi]], a successful [calibrate] stores a reference
    whose coordinates are within the same bounds. *)
Theorem reference_within_buffer (ft ft' : FaceTracker) (p : point)
    (xlo xhi ylo yhi : R) :
  Forall (fun q => xlo <= q.1 <= xhi /\ ylo <= q.2 <= yhi) (calibration_points ft) ->
  calibrate ft p = (ft', true) ->
  exists ref, reference_point ft' = Some ref
              /\ xlo <= ref.1 <= xhi /\ ylo <= ref.2 <= yhi.
Proof.
  intros Hb. unfold calibrate.
  destruct (decide _); [discriminate|].
  destruct (decide _) as [Hgood|]; [|discriminate].
  intros [= <-]. eexists. split; [reflexivity|].
  pose proof (enough_good_points_nonempty _ Hgood) as Hn.
  pose proof (good_points_sublist _ _ Hb) as Hg.
  unfold mean_point; simpl. split.
  - apply mean_bounds; [rewrite length_map; exact Hn|].
    apply Forall_fmap. eapply Forall_impl; [exact Hg|]. intros q [Hx _]. exact Hx.
  - apply mean_bounds; [rewrite length_map; exact Hn|].
    apply Forall_fmap. eapply Forall_impl; [exact Hg|]. intros q [_ Hy]. exact Hy.
Qed.

Lemma reference_within_buffer_witness :
  exists ref,
    reference_point (calibrate steady_tracker (0, 0)).1 = Some ref
    /\ 319 <= ref.1 <= 321 /\ 239 <= ref.2 <= 241.
Proof.
  apply (reference_within_buffer steady_tracker _ (0, 0) 319 321 239 241).
  - simpl. unfold steady_points. simpl.
    repeat (apply Forall_cons; split; [simpl; lra|]). apply Forall_nil. exact I.
  - rewrite commit_succeeds;
      [reflexivity | simpl; unfold Config.CALIBRATION_FRAMES; lia
      | exact steady_points_enough].
Defined.

Lemma all_equal_replicate (xs : list R) (x : R) :
  Forall (fun y => y = x) xs -> xs = replicate (length xs) x.
Proof. induction 1 as [|y ys -> _ IH]; simpl; [reflexivity | rewrite <- IH; reflexivity]. Qed.

Lemma std_constant (xs : list R) (x : R) :
  (0 < length xs)%nat -> Forall (fun y => y = x) xs -> std xs = 0.
Proof.
  intros Hn Hx. rewrite (all_equal_replicate xs x Hx). apply std_replicate, Hn.
Qed.

(** X13. A full buffer whose points all share one column, or all share one
    row, cannot commit, however the other coordinate is spread: the
    deviation on that axis is 0, no point is strictly within twice it, and
    [calibrate] empties the buffer and returns False. *)
Theorem calibrate_fails_on_constant_axis (ft : FaceTracker) (p : point) (c : R) :
  (Config.CALIBRATION_FRAMES <= length (calibration_points ft))%nat ->
  Forall (fun q => q.1 = c) (calibration_points ft)
  \/ Forall (fun q => q.2 = c) (calibration_points ft) ->
  good_points (calibration_points ft) = []
  /\ calibrate ft p = (set_calibration_points ft [], false).
Proof.
  intros Hfull Hconst.
  assert (Hn : (0 < length (calibration_points ft))%nat)
    by (unfold Config.CALIBRATION_FRAMES in Hfull; lia).
  assert (Hnone : good_points (calibration_points ft) = []).
  { unfold good_points. apply filter_none. apply Forall_forall.
    intros q _ [Hx Hy].
    destruct Hconst as [Hc|Hc].
    - rewrite (std_constant (map fst (calibration_points ft)) c) in Hx.
      + pose proof (Rabs_pos (q.1 - mean (map fst (calibration_points ft)))). lra.
      + rewrite length_map. exact Hn.
      + apply Forall_fmap. exact Hc.
    - rewrite (std_constant (map snd (calibration_points ft)) c) in Hy.
      + pose proof (Rabs_pos (q.2 - mean (map snd (calibration_points ft)))). lra.
      + rewrite length_map. exact Hn.
      + apply Forall_fmap. exact Hc. }
  split; [exact Hnone|].
  apply commit_fails; [exact Hfull|].
  unfold enough_good_points. rewrite Hnone. simpl.
  unfold Config.CALIBRATION_THRESHOLD. lra.
Qed.

Lemma calibrate_fails_on_constant_axis_witness :
  calibrate (set_calibration_points fresh_tracker nodding_points) (320, 245)
  = (set_calibration_points (set_calibration_points fresh_tracker nodding_points) [],
     false).
Proof.
  apply (calibrate_fails_on_constant_axis
           (set_calibration_points fresh_tracker nodding_points) (320, 245) 320).
  - simpl. unfold Config.CALIBRATION_FRAMES. lia.
  - left. simpl. repeat (apply Forall_cons; split; [reflexivity|]).
    apply Forall_nil. exact I.
Defined.

(** ** The velocity filter *)

Lemma power15_pos (x : R) : 0 < x -> 0 < power15 x.
Proof.
  intros Hx. unfold power15. destruct (decide (x = 0)); [lra|].
  unfold Rpower. apply exp_pos.
Qed.

Lemma expand_pos (d : R) : 0 < d -> 0 < expand d.
Proof.
  intros Hd. unfold expand, sign. destruct (decide (0 < d)); [|contradiction].
  pose proof (power15_pos (Rabs d) (Rabs_pos_lt d ltac:(lra))). lra.
Qed.

Lemma expand_neg (d : R) : d < 0 -> expand d < 0.
Proof.
  intros Hd. unfold expand, sign. destruct (decide (0 < d)); [lra|].
  destruct (decide (d < 0)); [|contradiction].
  pose proof (power15_pos (Rabs d) (Rabs_pos_lt d ltac:(lra))). lra.
Qed.

Lemma norm_vscale (v : point) (k : R) : 0 <= k -> norm (vscale v k) = k * norm v.
Proof.
  intros Hk. unfold norm, vscale. simpl.
  replace (v.1 * k * (v.1 * k) + v.2 * k * (v.2 * k))
    with ((k * k) * (v.1 * v.1 + v.2 * v.2)) by ring.
  rewrite sqrt_mult_alt by nra. rewrite sqrt_square by exact Hk. reflexivity.
Qed.

(** The acceleration step: the blended velocity times 1.5 when its speed is
    above the movement threshold, times 0.8 otherwise. *)
Lemma next_velocity_cases (v d : point) :
  (norm (blended_velocity v d) > Config.MOVEMENT_THRESHOLD
   /\ next_velocity v d = vscale (blended_velocity v d) Config.ACCELERATION_FACTOR)
  \/ (norm (blended_velocity v d) <= Config.MOVEMENT_THRESHOLD
      /\ next_velocity v d = vscale (blended_velocity v d) Config.DECELERATION_FACTOR).
Proof.
  unfold next_velocity. fold (blended_velocity v d).
  destruct (decide _) as [H|H]; [left | right]; split; auto.
  apply Rnot_gt_le, H.
Qed.

(** X14. The speed [update_position] stores is never between 1.6 and 3
    pixels per second: a blended velocity faster than [MOVEMENT_THRESHOLD] is
    multiplied by [ACCELERATION_FACTOR] and leaves faster than 3, a slower
    one is multiplied by [DECELERATION_FACTOR] and leaves at 1.6 or
    slower. *)
Theorem speed_dead_band (v d : point) :
  let speed := norm (next_velocity v d) in
  (norm (blended_velocity v d) > 2 ->
   speed = 15 / 10 * norm (blended_velocity v d) /\ 3 < speed)
  /\ (norm (blended_velocity v d) <= 2 ->
      speed = 8 / 10 * norm (blended_velocity v d) /\ speed <= 16 / 10)
  /\ (speed <= 16 / 10 \/ 3 < speed).
Proof.
  cbv zeta.
  destruct (next_velocity_cases v d) as [[Hs ->] | [Hs ->]];
    unfold Config.MOVEMENT_THRESHOLD in Hs;
    rewrite norm_vscale
      by (unfold Config.ACCELERATION_FACTOR, Config.DECELERATION_FACTOR; lra);
    unfold Config.ACCELERATION_FACTOR, Config.DECELERATION_FACTOR;
    repeat split; intros; lra.
Qed.

Lemma next_velocity_sign (v d : point) :
  (0 < (blended_velocity v d).1 -> 0 < (next_velocity v d).1)
  /\ ((blended_velocity v d).1 < 0 -> (next_velocity v d).1 < 0)
  /\ (0 < (blended_velocity v d).2 -> 0 < (next_velocity v d).2)
  /\ ((blended_velocity v d).2 < 0 -> (next_velocity v d).2 < 0).
Proof.
  destruct (next_velocity_cases v d) as [[_ ->] | [_ ->]];
    unfold vscale, Config.ACCELERATION_FACTOR, Config.DECELERATION_FACTOR; simpl;
    repeat split; intros; nra.
Qed.

(** The target on one axis moves the way the velocity points. *)
Lemma axis_target_forward (c lo hi : Z) (delta : R) :
  (0 <= lo)%Z -> (lo <= c <= hi)%Z -> 0 <= delta ->
  (c <= astype_int (clip (IZR c + delta) (IZR lo) (IZR hi)) <= hi)%Z.
Proof.
  intros Hlo [Hc1 Hc2] Hd. apply astype_int_bounds; [lia|].
  apply IZR_le in Hc1, Hc2.
  unfold clip, Rmin, Rmax.
  destruct (Rle_dec (IZR c + delta) (IZR lo)); destruct (Rle_dec _ (IZR hi)); lra.
Qed.

Lemma axis_target_backward (c lo hi : Z) (delta : R) :
  (0 <= lo)%Z -> (lo <= c <= hi)%Z -> delta <= 0 ->
  (lo <= astype_int (clip (IZR c + delta) (IZR lo) (IZR hi)) <= c)%Z.
Proof.
  intros Hlo [Hc1 Hc2] Hd. apply astype_int_bounds; [lia|].
  apply IZR_le in Hc1, Hc2.
  unfold clip, Rmin, Rmax.
  destruct (Rle_dec (IZR c + delta) (IZR lo)); destruct (Rle_dec _ (IZR hi)); lra.
Qed.

(** X15. The cursor follows the head.  For a calibrated, tracking tracker,
    a clock that has not gone back and a cursor inside the padded screen:
    when the face point is right of the reference and the stored velocity
    does not point left, the new velocity points right and the target is
    not left of the cursor; likewise to the left, and on the vertical
    axis. *)
Theorem cursor_follows_head (ft : FaceTracker) (ref face : point) (t : R)
    (cx cy : Z) :
  is_calibrated ft = true -> is_tracking ft = true ->
  reference_point ft = Some ref ->
  last_update ft <= t ->
  (Config.SCREEN_PADDING <= cx <= screen_w ft - Config.SCREEN_PADDING)%Z ->
  (Config.SCREEN_PADDING <= cy <= screen_h ft - Config.SCREEN_PADDING)%Z ->
  exists ft' x y,
    update_position ft face t (cx, cy) = (ft', Some (x, y))
    /\ (ref.1 < face.1 -> 0 <= (velocity ft).1 ->
        0 < (velocity ft').1 /\ (cx <= x)%Z)
    /\ (face.1 < ref.1 -> (velocity ft).1 <= 0 ->
        (velocity ft').1 < 0 /\ (x <= cx)%Z)
    /\ (ref.2 < face.2 -> 0 <= (velocity ft).2 ->
        0 < (velocity ft').2 /\ (cy <= y)%Z)
    /\ (face.2 < ref.2 -> (velocity ft).2 <= 0 ->
        (velocity ft').2 < 0 /\ (y <= cy)%Z).
Proof.
  intros Hc Ht Hr Hdt Hx Hy. unfold update_position.
  rewrite Hc, Ht. simpl. rewrite Hr. simpl.
  eexists _, _, _. split; [reflexivity|]. simpl.
  set (d := vsub face ref).
  destruct (next_velocity_sign (velocity ft) d) as (S1 & S2 & S3 & S4).
  assert (Hpad : (0 <= Config.SCREEN_PADDING)%Z) by (unfold Config.SCREEN_PADDING; lia).
  assert (Hb1 : (blended_velocity (velocity ft) d).1
                = (velocity ft).1 * (3 / 10) + expand d.1 * (12 / 10) * (1 - 3 / 10))
    by reflexivity.
  assert (Hb2 : (blended_velocity (velocity ft) d).2
                = (velocity ft).2 * (3 / 10) + expand d.2 * (12 / 10) * (1 - 3 / 10))
    by reflexivity.
  repeat split.
  - apply S1. rewrite Hb1. pose proof (expand_pos d.1 ltac:(unfold d; simpl; lra)). lra.
  - apply axis_target_forward; try assumption.
    assert (0 < (next_velocity (velocity ft) d).1).
    { apply S1. rewrite Hb1.
      pose proof (expand_pos d.1 ltac:(unfold d; simpl; lra)). lra. }
    nra.
  - apply S2. rewrite Hb1. pose proof (expand_neg d.1 ltac:(unfold d; simpl; lra)). lra.
  - apply axis_target_backward; try assumption.
    assert ((next_velocity (velocity ft) d).1 < 0).
    { apply S2. rewrite Hb1.
      pose proof (expand_neg d.1 ltac:(unfold d; simpl; lra)). lra. }
    nra.
  - apply S3. rewrite Hb2. pose proof (expand_pos d.2 ltac:(unfold d; simpl; lra)). lra.
  - apply axis_target_forward; try assumption.
    assert (0 < (next_velocity (velocity ft) d).2).
    { apply S3. rewrite Hb2.
      pose proof (expand_pos d.2 ltac:(unfold d; simpl; lra)). lra. }
    nra.
  - apply S4. rewrite Hb2. pose proof (expand_neg d.2 ltac:(unfold d; simpl; lra)). lra.
  - apply axis_target_backward; try assumption.
    assert ((next_velocity (velocity ft) d).2 < 0).
    { apply S4. rewrite Hb2.
      pose proof (expand_neg d.2 ltac:(unfold d; simpl; lra)). lra. }
    nra.
Qed.

Lemma cursor_follows_head_witness :
  exists ft' x y,
    update_position (tracking_at (100, 100)) (110, 100) (33 / 1000) (500, 500)%Z
    = (ft', Some (x, y))
    /\ 0 < (velocity ft').1 /\ (500 <= x)%Z.
Proof.
  destruct (cursor_follows_head (tracking_at (100, 100)) (100, 100) (110, 100)
              (33 / 1000) 500 500) as (ft' & x & y & E & Hright & _);
    try reflexivity;
    try (simpl; unfold Config.SCREEN_PADDING; lia);
    try (simpl; lra).
  exists ft', x, y. split; [exact E|].
  apply Hright; simpl; lra.
Defined.

(** ** Settings that are accepted *)

Section AcceptedSettings.

Variable float_of_str : string -> option R.

(** What the assignments do to a profile when no numeric value is
    rejected. *)
Lemma settings_stmts_accepted (data : gmap string PyVal) (p : UserProfile) :
  (forall key, key ∈ numeric_keys -> ~ rejected float_of_str data key) ->
  exists p',
    settings_stmts float_of_str data p = (p', None)
    /\ name p' = name p
    /\ calibration_data p' = calibration_data p
    /\ assigned float_of_str data "sensitivity" (sensitivity p')
    /\ assigned float_of_str data "smoothing" (smoothing p')
    /\ assigned float_of_str data "blink_threshold" (blink_threshold p')
    /\ assigned float_of_str data "mouth_threshold" (mouth_threshold p')
    /\ (data !! "sensitivity"%string = None -> sensitivity p' = sensitivity p)
    /\ (data !! "smoothing"%string = None -> smoothing p' = smoothing p)
    /\ (data !! "blink_threshold"%string = None ->
        blink_threshold p' = blink_threshold p)
    /\ (data !! "mouth_threshold"%string = None ->
        mouth_threshold p' = mouth_threshold p)
    /\ region_bounds p' = default (region_bounds p) (data !! "region_bounds"%string).
Proof.
  intros Hok.
  assert (H1 : ~ rejected float_of_str data "sensitivity")
    by (apply Hok; unfold numeric_keys; set_solver).
  assert (H2 : ~ rejected float_of_str data "smoothing")
    by (apply Hok; unfold numeric_keys; set_solver).
  assert (H3 : ~ rejected float_of_str data "blink_threshold")
    by (apply Hok; unfold numeric_keys; set_solver).
  assert (H4 : ~ rejected float_of_str data "mouth_threshold")
    by (apply Hok; unfold numeric_keys; set_solver).
  unfold rejected in H1, H2, H3, H4.
  unfold settings_stmts, stmt_seq, assign_float, assign_region, assigned.
  destruct (data !! "sensitivity"%string) as [v1|] eqn:L1;
    [destruct (py_float float_of_str v1) as [r1|e1] eqn:F1;
       [|exfalso; apply H1; eauto]|];
  (destruct (data !! "smoothing"%string) as [v2|] eqn:L2;
    [destruct (py_float float_of_str v2) as [r2|e2] eqn:F2;
       [|exfalso; apply H2; eauto]|];
  (destruct (data !! "blink_threshold"%string) as [v3|] eqn:L3;
    [destruct (py_float float_of_str v3) as [r3|e3] eqn:F3;
       [|exfalso; apply H3; eauto]|];
  (destruct (data !! "mouth_threshold"%string) as [v4|] eqn:L4;
    [destruct (py_float float_of_str v4) as [r4|e4] eqn:F4;
       [|exfalso; apply H4; eauto]|];
  (destruct (data !! "region_bounds"%string) as [v5|] eqn:L5;
   eexists; repeat split; simpl; intros; congruence)))).
Qed.

(** No assignment writes the calibration data. *)
Lemma settings_stmts_calibration_data (data : gmap string PyVal) (p : UserProfile) :
  calibration_data (settings_stmts float_of_str data p).1 = calibration_data p.
Proof.
  unfold settings_stmts, stmt_seq, assign_float, assign_region.
  repeat match goal with
         | |- context [data !! ?k] => destruct (data !! k)
         | |- context [py_float float_of_str ?v] => destruct (py_float float_of_str v)
         end; reflexivity.
Qed.

(** X16. A payload in which no numeric setting holds a value [float]
    rejects, applied to a profile that holds no calibration data, is
    accepted: the reply is success and the profile is saved once, as it is
    after the update.  Every setting present in the payload holds the
    payload's value ([float] of it for the four numeric settings, the value
    as it is for [region_bounds], whatever it is); every setting absent from
    the payload keeps its value, and keys other than the five are
    ignored. *)
Theorem settings_update_accepted (ft : FaceTracker) (data : gmap string PyVal) :
  (forall key, key ∈ numeric_keys -> ~ rejected float_of_str data key) ->
  calibration_data (current_profile ft) = None ->
  exists p',
    handle_settings_update float_of_str ft data
    = (set_current_profile ft p', [Save p'], StatusSuccess)
    /\ name p' = name (current_profile ft)
    /\ calibration_data p' = None
    /\ assigned float_of_str data "sensitivity" (sensitivity p')
    /\ assigned float_of_str data "smoothing" (smoothing p')
    /\ assigned float_of_str data "blink_threshold" (blink_threshold p')
    /\ assigned float_of_str data "mouth_threshold" (mouth_threshold p')
    /\ (data !! "sensitivity"%string = None ->
        sensitivity p' = sensitivity (current_profile ft))
    /\ (data !! "smoothing"%string = None ->
        smoothing p' = smoothing (current_profile ft))
    /\ (data !! "blink_threshold"%string = None ->
        blink_threshold p' = blink_threshold (current_profile ft))
    /\ (data !! "mouth_threshold"%string = None ->
        mouth_threshold p' = mouth_threshold (current_profile ft))
    /\ region_bounds p'
       = default (region_bounds (current_profile ft)) (data !! "region_bounds"%string).
Proof.
  intros Hok Hcal.
  destruct (settings_stmts_accepted data (current_profile ft) Hok)
    as (p' & Hs & Hn & Hc & Hrest).
  exists p'. rewrite Hcal in Hc.
  split; [|split; [exact Hn | split; [exact Hc | exact Hrest]]].
  unfold handle_settings_update, update_settings, save. rewrite Hs, Hc. reflexivity.
Qed.

(** X17. Once the profile holds calibration data, which [process_frame]
    stores there as a numpy array, no settings update is answered with
    success: a payload without a rejected value still has its assignments
    applied, but [save] raises on the array and the reply is the error
    [TypeError]. *)
Theorem settings_update_after_calibration (ft : FaceTracker)
    (data : gmap string PyVal) (c : point) :
  calibration_data (current_profile ft) = Some c ->
  (exists e, (handle_settings_update float_of_str ft data).2 = StatusError e)
  /\ ((forall key, key ∈ numeric_keys -> ~ rejected float_of_str data key) ->
      exists p',
        handle_settings_update float_of_str ft data
        = (set_current_profile ft p', [Save p'], StatusError TypeError)
        /\ assigned float_of_str data "sensitivity" (sensitivity p')
        /\ region_bounds p'
           = default (region_bounds (current_profile ft))
               (data !! "region_bounds"%string)).
Proof.
  intros Hcal.
  assert (Hacc : (forall key, key ∈ numeric_keys -> ~ rejected float_of_str data key) ->
                 exists p',
                   handle_settings_update float_of_str ft data
                   = (set_current_profile ft p', [Save p'], StatusError TypeError)
                   /\ assigned float_of_str data "sensitivity" (sensitivity p')
                   /\ region_bounds p'
                      = default (region_bounds (current_profile ft))
                          (data !! "region_bounds"%string)).
  { intros Hok.
    destruct (settings_stmts_accepted data (current_profile ft) Hok)
      as (p' & Hs & _ & Hc & Ha & _ & _ & _ & _ & _ & _ & _ & Hr).
    exists p'. rewrite Hcal in Hc. split; [|split; assumption].
    unfold handle_settings_update, update_settings, save. rewrite Hs, Hc. reflexivity. }
  split; [|exact Hacc].
  pose proof (settings_stmts_calibration_data data (current_profile ft)) as Hkeep.
  unfold handle_settings_update, update_settings, save.
  destruct (settings_stmts float_of_str data (current_profile ft)) as [p' [e|]].
  - exists e. reflexivity.
  - simpl in Hkeep. rewrite Hkeep, Hcal. exists TypeError. reflexivity.
Qed.

End AcceptedSettings.

Lemma valid_payload_accepted (float_of_str : string -> option R) (key : string) :
  key ∈ numeric_keys -> ~ rejected float_of_str valid_payload key.
Proof.
  unfold numeric_keys. intros Hin (v & e & Hl & Hf).
  repeat (apply elem_of_cons in Hin as [->|Hin]).
  - change (valid_payload !! "sensitivity"%string) with (Some (PyNum 2)) in Hl.
    injection Hl as <-. discriminate.
  - change (valid_payload !! "smoothing"%string) with (@None PyVal) in Hl. discriminate.
  - change (valid_payload !! "blink_threshold"%string) with (@None PyVal) in Hl.
    discriminate.
  - change (valid_payload !! "mouth_threshold"%string) with (Some (PyBool true)) in Hl.
    injection Hl as <-. discriminate.
  - apply elem_of_nil in Hin. exact Hin.
Qed.

Lemma settings_update_accepted_witness :
  exists p',
    handle_settings_update no_str_float fresh_tracker valid_payload
    = (set_current_profile fresh_tracker p', [Save p'], StatusSuccess)
    /\ sensitivity p' = 2
    /\ mouth_threshold p' = 1
    /\ smoothing p' = 15 / 100
    /\ region_bounds p' = corner_region.
Proof.
  destruct (settings_update_accepted no_str_float fresh_tracker valid_payload
              (valid_payload_accepted no_str_float) eq_refl)
    as (p' & Hrun & _ & _ & A1 & _ & _ & A4 & _ & K2 & _ & _ & Hr).
  exists p'. split; [exact Hrun|].
  split; [exact (A1 (PyNum 2) 2 eq_refl eq_refl)|].
  split; [exact (A4 (PyBool true) 1 eq_refl eq_refl)|].
  split; [exact (K2 eq_refl) | exact Hr].
Defined.

Lemma settings_update_after_calibration_witness :
  let ft := set_current_profile fresh_tracker
              (set_calibration_data (UserProfile_init "default") (Some (320, 240))) in
  exists e, (handle_settings_update no_str_float ft valid_payload).2 = StatusError e.
Proof.
  intros ft.
  exact (proj1 (settings_update_after_calibration no_str_float ft valid_payload
                  (320, 240) eq_refl)).
Defined.

(** ** The frame that commits a calibration *)

(** X18. The frame on which a calibration commits.  For a tracking, unpaused,
    uncalibrated tracker whose full buffer has enough good points and no
    point exactly at twice the deviation from the mean,
    [process_frame] calibrates (reference point the mean of the good points,
    velocity zero), stores the reference in the profile's calibration data
    and calls [save] on the profile, which raises on the stored array: the
    frame returns False, with the tracker calibrated all the same. *)
Theorem commit_frame (ft : FaceTracker) (lm : landmarks) (nose : point)
    (env : FrameEnv) :
  is_tracking ft = true -> is_paused ft = false -> is_calibrated ft = false ->
  lm !! 30%nat = Some nose ->
  (Config.CALIBRATION_FRAMES <= length (calibration_points ft))%nat ->
  tie_free (calibration_points ft) ->
  enough_good_points (calibration_points ft) ->
  let ref := mean_point (good_points (calibration_points ft)) in
  let p := set_calibration_data (current_profile ft) (Some ref) in
  process_frame ft (Some lm) env
  = (set_current_profile
       (set_velocity
          (set_is_calibrated (set_reference_point ft (Some ref)) true) (0, 0)) p,
     [Save p], false).
Proof.
  intros Ht Hp Hc Hn Hfull _ Hgood. cbv zeta. unfold process_frame.
  rewrite Ht, Hp, Hn, Hc. simpl negb. cbv iota.
  rewrite commit_succeeds by assumption. reflexivity.
Qed.

Lemma commit_frame_witness :
  (process_frame steady_tracker (Some flat_face)
     (mkFrameEnv 1 1 1 1 1 (500, 500)%Z)).2 = false
  /\ is_calibrated (process_frame steady_tracker (Some flat_face)
                      (mkFrameEnv 1 1 1 1 1 (500, 500)%Z)).1.1 = true.
Proof.
  assert (Hfull : (Config.CALIBRATION_FRAMES
                   <= length (calibration_points steady_tracker))%nat)
    by (simpl; unfold Config.CALIBRATION_FRAMES; lia).
  rewrite (commit_frame steady_tracker flat_face (100, 100)
             (mkFrameEnv 1 1 1 1 1 (500, 500)%Z)
             eq_refl eq_refl eq_refl eq_refl Hfull steady_points_tie_free
             steady_points_enough).
  split; reflexivity.
Defined.

(** ** The frame rate monitor *)

Lemma deque_append_room (maxlen : nat) (d : list R) (x : R) :
  (length d < maxlen)%nat -> deque_append maxlen d x = d ++ [x].
Proof.
  intros H. unfold deque_append. rewrite length_app. simpl.
  replace (length d + 1 - maxlen)%nat with 0%nat by lia. reflexivity.
Qed.

Lemma deque_append_length (maxlen : nat) (d : list R) (x : R) :
  length (deque_append maxlen d x) = Nat.min (length d + 1) maxlen.
Proof.
  unfold deque_append. rewrite length_drop, length_app. simpl. lia.
Qed.

Lemma deque_append_last (maxlen : nat) (d : list R) (x : R) :
  (0 < maxlen)%nat -> last (deque_append maxlen d x) = Some x.
Proof.
  intros H. unfold deque_append.
  rewrite last_lookup, lookup_drop, length_drop, length_app. simpl.
  rewrite <- (last_snoc x d), last_lookup, length_app. simpl.
  f_equal. lia.
Qed.

Lemma sum_app (xs ys : list R) : sum (xs ++ ys) = sum xs + sum ys.
Proof.
  unfold sum. induction xs as [|x xs IH]; simpl; [ring | rewrite IH; ring].
Qed.

(** X19. [PerformanceMonitor.update] keeps a window of the last 30 frame
    times: after a call the deque holds at least one and at most 30 times,
    the newest being the time since the previous call, and [last_time] is
    the clock reading.  The call raises (division by zero) exactly when the
    times in the window sum to zero, as on a first call at the clock
    reading of the constructor, and then leaves [fps] as it was; otherwise
    it stores and returns the number of frames in the window divided by the
    time they took. *)
Theorem performance_update_window (pm : PerformanceMonitor) (t : R) :
  let r := PerformanceMonitor_update pm t in
  let window := frame_times r.1 in
  (1 <= length window <= FRAME_WINDOW)%nat
  /\ length window = Nat.min (length (frame_times pm) + 1) FRAME_WINDOW
  /\ last window = Some (t - last_time pm)
  /\ last_time r.1 = t
  /\ (sum window = 0 -> r.2 = None /\ fps r.1 = fps pm)
  /\ (sum window <> 0 ->
      r.2 = Some (INR (length window) / sum window)
      /\ fps r.1 = INR (length window) / sum window).
Proof.
  cbv zeta. unfold PerformanceMonitor_update.
  set (window := deque_append FRAME_WINDOW (frame_times pm) (t - last_time pm)).
  assert (Hlen : length window = Nat.min (length (frame_times pm) + 1) FRAME_WINDOW)
    by apply deque_append_length.
  assert (Hpos : (1 <= length window <= FRAME_WINDOW)%nat)
    by (rewrite Hlen; unfold FRAME_WINDOW; lia).
  assert (Hlast : last window = Some (t - last_time pm))
    by (apply deque_append_last; unfold FRAME_WINDOW; lia).
  assert (Hn : 0 < INR (length window)) by (apply lt_0_INR; lia).
  destruct (decide (0 < length window)%nat) as [_|Hz]; [|lia].
  destruct (decide (sum window / INR (length window) = 0)) as [Hzero|Hnz]; simpl.
  - assert (Hs : sum window = 0).
    { apply Rmult_eq_reg_r with (/ INR (length window)).
      - rewrite Rmult_0_l. exact Hzero.
      - apply Rinv_neq_0_compat. lra. }
    split; [exact Hpos|]. split; [exact Hlen|]. split; [exact Hlast|].
    split; [reflexivity|]. split; [intros _; split; reflexivity|].
    intros Hne. contradiction.
  - assert (Hs : sum window <> 0).
    { intros Hs. apply Hnz. rewrite Hs. unfold Rdiv. ring. }
    assert (Hrate : 1 / (sum window / INR (length window))
                    = INR (length window) / sum window)
      by (field; split; [exact Hs | lra]).
    split; [exact Hpos|]. split; [exact Hlen|]. split; [exact Hlast|].
    split; [reflexivity|]. split; [intros Hz; contradiction|].
    intros _. rewrite Hrate. split; reflexivity.
Qed.

Lemma run_updates_rate (ts : list R) (pm : PerformanceMonitor) (base : R) :
  sum (frame_times pm) = last_time pm - base ->
  base <= last_time pm ->
  (length (frame_times pm) + length ts <= FRAME_WINDOW)%nat ->
  ts <> [] ->
  increasing (last_time pm) ts ->
  exists pm',
    run_updates pm ts = Some pm'
    /\ last_time pm' = default (last_time pm) (last ts)
    /\ length (frame_times pm') = (length (frame_times pm) + length ts)%nat
    /\ sum (frame_times pm') = last_time pm' - base
    /\ fps pm' = INR (length (frame_times pm')) / (last_time pm' - base).
Proof.
  revert pm. induction ts as [|t ts IH]; intros pm Hsum Hbase Hroom Hne Hinc;
    [contradiction|].
  destruct Hinc as [Hlt Hinc]. simpl in Hroom.
  assert (Hwin : deque_append FRAME_WINDOW (frame_times pm) (t - last_time pm)
                 = frame_times pm ++ [t - last_time pm])
    by (apply deque_append_room; lia).
  assert (Hs : sum (frame_times pm ++ [t - last_time pm]) = t - base).
  { rewrite sum_app, Hsum. unfold sum. simpl. ring. }
  assert (Hl : length (frame_times pm ++ [t - last_time pm])
               = (length (frame_times pm) + 1)%nat)
    by (rewrite length_app; reflexivity).
  assert (Hn : 0 < INR (length (frame_times pm ++ [t - last_time pm])))
    by (apply lt_0_INR; lia).
  simpl. unfold PerformanceMonitor_update. rewrite Hwin.
  destruct (decide (0 < _)%nat) as [_|Hz]; [|lia].
  destruct (decide (_ = 0)) as [Hzero|Hnz].
  { exfalso. rewrite Hs in Hzero.
    assert (Hq : (t - base) / INR (length (frame_times pm ++ [t - last_time pm]))
                 * INR (length (frame_times pm ++ [t - last_time pm])) = t - base)
      by (field; lra).
    rewrite Hzero in Hq. lra. }
  set (pm1 := mkPerformanceMonitor _ _ t).
  destruct ts as [|t2 ts].
  - exists pm1. simpl. repeat split; try assumption; try lia.
    rewrite Hs. field. split; lra.
  - destruct (IH pm1) as (pm' & Hrun & Hlast & Hlen & Hsum' & Hfps);
      try (simpl; assumption); try (simpl; lra); try discriminate.
    { simpl. rewrite Hl. simpl in Hroom. lia. }
    exists pm'. split; [exact Hrun|].
    split.
    { rewrite Hlast, last_cons_cons.
      destruct (last (t2 :: ts)) eqn:El; [reflexivity|].
      apply last_None in El. discriminate. }
    split; [rewrite Hlen; simpl; rewrite Hl; lia|].
    split; assumption.
Qed.

(** X20. The frame rate is frames per second.  From a fresh monitor, after
    [n] calls of [update] ([1 <= n <= 30]) at strictly increasing clock
    readings, no call has raised and [fps] is [n] divided by the time from
    the constructor to the last reading. *)
Theorem fps_is_frames_per_second (t0 : R) (ts : list R) :
  ts <> [] -> (length ts <= FRAME_WINDOW)%nat -> increasing t0 ts ->
  exists pm,
    run_updates (PerformanceMonitor_init t0) ts = Some pm
    /\ last_time pm = default t0 (last ts)
    /\ fps pm = INR (length ts) / (last_time pm - t0).
Proof.
  intros Hne Hlen Hinc.
  assert (Hsum : sum (frame_times (PerformanceMonitor_init t0))
                 = last_time (PerformanceMonitor_init t0) - t0)
    by (unfold sum; simpl; ring).
  assert (Hbase : t0 <= last_time (PerformanceMonitor_init t0)) by (simpl; lra).
  destruct (run_updates_rate ts (PerformanceMonitor_init t0) t0 Hsum Hbase Hlen Hne Hinc)
    as (pm & Hrun & Hlast & Hl & _ & Hfps).
  simpl in Hlast, Hl.
  exists pm. split; [exact Hrun|]. split; [exact Hlast|].
  rewrite Hfps, Hl. reflexivity.
Qed.

Lemma fps_is_frames_per_second_witness :
  exists pm,
    run_updates (PerformanceMonitor_init 10) [10 + 1 / 30; 10 + 2 / 30; 10 + 3 / 30]
    = Some pm
    /\ fps pm = INR 3 / (last_time pm - 10).
Proof.
  destruct (fps_is_frames_per_second 10 [10 + 1 / 30; 10 + 2 / 30; 10 + 3 / 30])
    as (pm & Hrun & _ & Hfps).
  - discriminate.
  - simpl. unfold FRAME_WINDOW. lia.
  - simpl. repeat split; lra.
  - exists pm. split; [exact Hrun | exact Hfps].
Defined.

(** * Properties of face_tracker.py *)


Lemma scan_spec (reads : nat -> option bool) (n i : nat) :
  let r := face_tracker.scan reads i n in
  (r.1 <= n)%nat
  /\ (r.2 = true ->
      (1 <= r.1)%nat /\ reads (i + r.1 - 1)%nat = Some true
      /\ forall j, (j < r.1 - 1)%nat -> reads (i + j)%nat <> Some true)
  /\ (r.2 = false ->
      r.1 = n /\ forall j, (j < n)%nat -> reads (i + j)%nat <> Some true).
Proof.
  revert i. induction n as [|n IH]; intros i; simpl.
  - repeat split; try discriminate; lia.
  - specialize (IH (S i)). cbv zeta in IH.
    destruct (reads i) as [[|]|] eqn:Ei.
    + simpl. split; [lia|]. split; [|discriminate].
      intros _. split; [lia|]. split.
      * replace (i + 1 - 1)%nat with i by lia. exact Ei.
      * intros j Hj. lia.
    + destruct (face_tracker.scan reads (S i) n) as [k found]. simpl in *.
      destruct IH as (Hk & Hfound & Hnone). split; [lia|]. split.
      * intros Hf. destruct (Hfound Hf) as (H1 & H2 & H3).
        split; [lia|]. split.
        -- replace (i + S k - 1)%nat with (S i + k - 1)%nat by lia. exact H2.
        -- intros j Hj. destruct j as [|j].
           ++ rewrite Nat.add_0_r, Ei. discriminate.
           ++ replace (i + S j)%nat with (S i + j)%nat by lia. apply H3. lia.
      * intros Hf. destruct (Hnone Hf) as (H1 & H2). split; [lia|].
        intros j Hj. destruct j as [|j].
        -- rewrite Nat.add_0_r, Ei. discriminate.
        -- replace (i + S j)%nat with (S i + j)%nat by lia. apply H2. lia.
    + destruct (face_tracker.scan reads (S i) n) as [k found]. simpl in *.
      destruct IH as (Hk & Hfound & Hnone). split; [lia|]. split.
      * intros Hf. destruct (Hfound Hf) as (H1 & H2 & H3).
        split; [lia|]. split.
        -- replace (i + S k - 1)%nat with (S i + k - 1)%nat by lia. exact H2.
        -- intros j Hj. destruct j as [|j].
           ++ rewrite Nat.add_0_r, Ei. discriminate.
           ++ replace (i + S j)%nat with (S i + j)%nat by lia. apply H3. lia.
      * intros Hf. destruct (Hnone Hf) as (H1 & H2). split; [lia|].
        intros j Hj. destruct j as [|j].
        -- rewrite Nat.add_0_r, Ei. discriminate.
        -- replace (i + S j)%nat with (S i + j)%nat by lia. apply H2. lia.
Qed.

(** X22. [calibrate] of face_tracker.py reads at most 10 frames and stops at
    the first one in which a face is detected.  Called on an object that is
    tracking and holds a capture, it returns, with [calibrated] set, exactly
    when one of the first 10 reads gives a frame with a face, having read up
    to that frame and no further; otherwise it raises after 10 reads and
    leaves the object as it was.  On an object that is not tracking it
    raises without reading a frame. *)
Theorem legacy_calibrate_scans (ft : face_tracker.FaceTracker)
    (reads : nat -> option bool) :
  let r := face_tracker.calibrate ft reads in
  (face_tracker.is_tracking ft = false -> r = (ft, face_tracker.Raised, 0%nat))
  /\ (face_tracker.is_tracking ft = true -> face_tracker.cap ft = true ->
      (r.2 <= 10)%nat
      /\ ((exists j, (j < 10)%nat /\ reads j = Some true) ->
          r.1.2 = face_tracker.Returned
          /\ face_tracker.calibrated r.1.1 = true
          /\ reads (r.2 - 1)%nat = Some true
          /\ forall j, (j < r.2 - 1)%nat -> reads j <> Some true)
      /\ ((forall j, (j < 10)%nat -> reads j <> Some true) ->
          r = (ft, face_tracker.Raised, 10%nat))).
Proof.
  cbv zeta. unfold face_tracker.calibrate. split.
  - intros ->. reflexivity.
  - intros -> ->. simpl negb. cbv iota.
    pose proof (scan_spec reads 10 0) as (Hk & Hfound & Hnone). cbv zeta in *.
    destruct (face_tracker.scan reads 0 10) as [k found]. simpl in *.
    destruct found.
    + destruct (Hfound eq_refl) as (H1 & H2 & H3). simpl.
      split; [exact Hk|]. split.
      * intros _. repeat split; assumption.
      * intros Hno. exfalso. apply (Hno (k - 1)%nat); [lia | exact H2].
    + destruct (Hnone eq_refl) as (-> & H2). simpl.
      split; [lia|]. split.
      * intros (j & Hj & Hr). exfalso. exact (H2 j Hj Hr).
      * intros _. reflexivity.
Qed.

(** X23. The capture life cycle of face_tracker.py.  A new object is stopped
    and holds no capture; [start_tracking] on a stopped object starts it
    when the camera opens and otherwise raises, leaving it stopped without a
    capture; on a tracking object it does nothing; [stop_tracking] always
    leaves the object stopped without a capture.  Sensitivity and
    calibration survive starting and stopping, and an object that holds a
    capture whenever it is tracking still does so after any method. *)
Theorem legacy_capture_life_cycle (float_of_str : string -> option R)
    (ft : face_tracker.FaceTracker) (opened : bool)
    (reads : nat -> option bool) (value : PyVal) :
  face_tracker.holds_capture face_tracker.init
  /\ (face_tracker.is_tracking ft = true ->
      face_tracker.start_tracking ft opened = (ft, face_tracker.Returned))
  /\ (face_tracker.is_tracking ft = false ->
      (face_tracker.start_tracking ft opened).2
        = (if opened then face_tracker.Returned else face_tracker.Raised)
      /\ face_tracker.is_tracking (face_tracker.start_tracking ft opened).1 = opened
      /\ face_tracker.cap (face_tracker.start_tracking ft opened).1 = opened)
  /\ face_tracker.is_tracking (face_tracker.stop_tracking ft).1 = false
  /\ face_tracker.cap (face_tracker.stop_tracking ft).1 = false
  /\ face_tracker.sensitivity (face_tracker.start_tracking ft opened).1
     = face_tracker.sensitivity ft
  /\ face_tracker.calibrated (face_tracker.start_tracking ft opened).1
     = face_tracker.calibrated ft
  /\ face_tracker.sensitivity (face_tracker.stop_tracking ft).1
     = face_tracker.sensitivity ft
  /\ face_tracker.calibrated (face_tracker.stop_tracking ft).1
     = face_tracker.calibrated ft
  /\ (face_tracker.holds_capture ft ->
      face_tracker.holds_capture (face_tracker.start_tracking ft opened).1
      /\ face_tracker.holds_capture (face_tracker.stop_tracking ft).1
      /\ face_tracker.holds_capture (face_tracker.reset_calibration ft).1
      /\ face_tracker.holds_capture (face_tracker.calibrate ft reads).1.1
      /\ face_tracker.holds_capture
           (face_tracker.set_sensitivity float_of_str ft value).1).
Proof.
  assert (Hcal : face_tracker.holds_capture ft ->
                 face_tracker.holds_capture (face_tracker.calibrate ft reads).1.1).
  { unfold face_tracker.holds_capture, face_tracker.calibrate.
    destruct (negb (face_tracker.is_tracking ft)); [auto|].
    destruct (negb (face_tracker.cap ft)); [auto|].
    destruct (face_tracker.scan reads 0 10) as [k [|]]; auto. }
  revert Hcal.
  unfold face_tracker.holds_capture, face_tracker.start_tracking,
    face_tracker.stop_tracking, face_tracker.reset_calibration,
    face_tracker.set_sensitivity.
  intros Hcal.
  destruct ft as [tr sens c cal]. cbn -[face_tracker.calibrate] in *.
  split; [discriminate|].
  split; [intros ->; reflexivity|].
  split; [intros ->; destruct opened; repeat split|].
  split; [reflexivity|]. split; [reflexivity|].
  split; [destruct tr, opened; reflexivity|].
  split; [destruct tr, opened; reflexivity|].
  split; [reflexivity|]. split; [reflexivity|].
  intros Hcap. split; [destruct tr, opened; simpl; auto|].
  split; [discriminate|]. split; [exact Hcap|]. split.
  - exact (Hcal Hcap).
  - destruct (py_float float_of_str value); simpl; exact Hcap.
Qed.

(** * Frames that dispatch nothing *)

(** X24. Gestures are dispatched only while tracking.  On a frame without a
    face, and whenever the tracker is not tracking, paused or not yet
    calibrated, [process_frame] runs neither detector and clicks nothing:
    the gesture state, the click time and the motion clock are as before.
    Without a face, not tracking or paused, the whole state is unchanged and
    nothing is issued at all. *)
Theorem process_frame_suppresses_gestures (ft : FaceTracker)
    (faces : option landmarks) (env : FrameEnv) :
  faces = None \/ is_tracking ft = false \/ is_paused ft = true
  \/ is_calibrated ft = false ->
  let r := process_frame ft faces env in
  gesture_detector r.1.1 = gesture_detector ft
  /\ last_click_time r.1.1 = last_click_time ft
  /\ last_update r.1.1 = last_update ft
  /\ (forall b, Click b ∉ r.1.2)
  /\ (faces = None \/ is_tracking ft = false \/ is_paused ft = true ->
      r.1 = (ft, [])).
Proof.
  intros H. cbv zeta. unfold process_frame.
  destruct (is_tracking ft) eqn:Ht; simpl negb; cbv iota.
  2:{ simpl. repeat split. intros b. apply not_elem_of_nil. }
  destruct (is_paused ft) eqn:Hp.
  { simpl. repeat split. intros b. apply not_elem_of_nil. }
  destruct faces as [lm|].
  2:{ simpl. repeat split. intros b. apply not_elem_of_nil. }
  assert (Hno : ~ (Some lm = None \/ true = false \/ false = true))
    by (intros [Hf|[Hf|Hf]]; discriminate).
  destruct (lm !! 30%nat) as [nose|].
  2:{ simpl. split; [reflexivity|]. split; [reflexivity|]. split; [reflexivity|].
      split; [intros b; apply not_elem_of_nil | intros Hf; contradiction]. }
  destruct (is_calibrated ft) eqn:Hc.
  { destruct H as [Hf|[Hf|[Hf|Hf]]]; discriminate. }
  simpl negb. cbv iota.
  destruct (calibrate ft nose) as [ft1 ok] eqn:Ec.
  destruct (calibrate_keeps _ _ _ _ Ec) as (_ & _ & _ & _ & _ & Hg & Hl).
  assert (Hu : last_update ft1 = last_update ft).
  { revert Ec. unfold calibrate.
    destruct (decide _); [|destruct (decide _)]; intros [= <- _]; reflexivity. }
  destruct ok.
  - unfold save. destruct (calibration_data _); simpl;
      (split; [exact Hg|]); (split; [exact Hl|]); (split; [exact Hu|]);
      (split; [intros b Hin; effect_cases; discriminate | intros Hf; contradiction]).
  - simpl. split; [exact Hg|]. split; [exact Hl|]. split; [exact Hu|].
    split; [intros b; apply not_elem_of_nil | intros Hf; contradiction].
Qed.

Lemma process_frame_suppresses_gestures_witness :
  (process_frame paused_tracker (Some open_face)
     (mkFrameEnv 1 1 1 1 1 (500, 500)%Z)).1 = (paused_tracker, []).
Proof.
  destruct (process_frame_suppresses_gestures paused_tracker (Some open_face)
              (mkFrameEnv 1 1 1 1 1 (500, 500)%Z))
    as (_ & _ & _ & _ & Hidle).
  - right. right. left. reflexivity.
  - apply Hidle. right. right. reflexivity.
Defined.

Lemma unpack_region_wrong_length (l : list PyVal) :
  length l <> 4%nat -> unpack_region (PyList l) = None.
Proof.
  intros Hl. do 5 (destruct l as [|? l]; try reflexivity). simpl in Hl. lia.
Qed.

(** X25. A region of the wrong length disables the frame.  When the profile's
    [region_bounds] is a non-empty list that does not have four items (the
    settings update stores any value), every frame of a calibrated, tracking
    tracker fails at the unpacking: [process_frame] returns False, moves
    nothing, clicks nothing and never reaches the gesture detectors, though
    [update_position] has already advanced the velocity and the motion
    clock. *)
Theorem malformed_region_disables_frame (ft : FaceTracker) (lm : landmarks)
    (nose ref : point) (env : FrameEnv) (l : list PyVal) :
  is_tracking ft = true -> is_paused ft = false -> is_calibrated ft = true ->
  reference_point ft = Some ref ->
  lm !! 30%nat = Some nose ->
  region_bounds (current_profile ft) = PyList l -> l <> [] -> length l <> 4%nat ->
  let r := process_frame ft (Some lm) env in
  r.2 = false
  /\ r.1.2 = []
  /\ r.1.1 = (update_position ft nose (t_update env) (cursor env)).1
  /\ gesture_detector r.1.1 = gesture_detector ft
  /\ last_update r.1.1 = t_update env.
Proof.
  intros Ht Hp Hc Hr Hn Hreg Hne Hlen. cbv zeta. unfold process_frame.
  rewrite Ht, Hp, Hn, Hc. simpl negb. cbv iota.
  unfold move_step, update_position. rewrite Hc, Ht. simpl. rewrite Hr. simpl.
  rewrite Hp, Hreg.
  rewrite (unpack_region_wrong_length l Hlen).
  destruct l as [|v l]; [contradiction|]. simpl. repeat split.
Qed.

Lemma malformed_region_disables_frame_witness :
  let ft := set_current_profile (tracking_at (100, 100))
              (set_region_bounds (UserProfile_init "default")
                 (PyList [PyNum 0; PyNum 0; PyNum 10])) in
  (process_frame ft (Some flat_face) (mkFrameEnv 1 1 1 1 1 (500, 500)%Z)).2 = false
  /\ (process_frame ft (Some flat_face) (mkFrameEnv 1 1 1 1 1 (500, 500)%Z)).1.2 = [].
Proof.
  intros ft.
  destruct (malformed_region_disables_frame ft flat_face (100, 100) (100, 100)
              (mkFrameEnv 1 1 1 1 1 (500, 500)%Z) [PyNum 0; PyNum 0; PyNum 10])
    as (H1 & H2 & _); try reflexivity; try discriminate.
  split; assumption.
Defined.

(** * Integers beyond the doubles *)







